(** * MPC wallet service: seed persistence and wallet rehydration

    A shallow embedding of [mpc_wallet_service/client.py] (the class
    [CDPAgentkitClient]) and of the request handlers of [api/main.py].

    - Python exceptions are values of [PyExc]; a method is a function from
      the world to an [Outcome] and the world it leaves behind.
    - The world holds the local file system (a finite map from paths to
      contents), the state of the wallet provider, and the sequence of
      file-system and SDK calls made so far.
    - The CDP SDK ([cdp.Cdp], [cdp.Wallet]) and [json.dumps] are external
      libraries: they enter as the interface [CdpSdk], and every result
      below holds for each of its instances.  An SDK call reaches the local
      disk only through the path it is handed: [save_seed] may rewrite that
      file, [load_seed] reads it.
    - The logger is left out: each of its lines carries the time of the
      call.  So [files] stands for the files other than the logger's
      (logs/cdp_transactions.log, which importing the client creates and
      every method appends to), and the properties speak of the seed file,
      of the calls made and of what is returned or raised.  The arguments
      of a logger call are kept where evaluating them can raise
      ([wallet.id]).
    - A [str] is held as the bytes that the codec of text files writes for
      it; which strings that codec refuses is the interface [TextCodec]. *)

From stdpp Require Import base tactics option list strings gmap pretty.
From Stdlib Require Import ZArith.

#[local] Set Warnings "-register-all".
#[local] Open Scope Z_scope.
#[local] Open Scope string_scope.
#[local] Open Scope list_scope.

(** ** Values *)

(** JSON documents, and Python dicts with string keys.  An object keeps its
    fields in insertion order, as a Python dict does. *)
Inductive Json :=
| JNull
| JBool (b : bool)
| JNum (n : Z)
| JFloat (repr : string)
| JStr (s : string)
| JArr (items : list Json)
| JObj (fields : list (string * Json)).

(** [d.get(k)] on a dict held as an association list. *)
Fixpoint dict_get (d : list (string * Json)) (k : string) : option Json :=
  match d with
  | [] => None
  | (k', v) :: rest => if String.eqb k' k then Some v else dict_get rest k
  end.

(** [type(v).__name__] *)
Definition py_type_name (v : Json) : string :=
  match v with
  | JNull => "NoneType"
  | JBool _ => "bool"
  | JNum _ => "int"
  | JFloat _ => "float"
  | JStr _ => "str"
  | JArr _ => "list"
  | JObj _ => "dict"
  end.

(** How the error of [f.write(v)] names the type of [v]: [None] is named
    as it is written. *)
Definition write_arg_name (v : Json) : string :=
  match v with
  | JNull => "None"
  | other => py_type_name other
  end.

(** [needle in haystack] on two strings. *)
Fixpoint str_contains (needle haystack : string) : bool :=
  String.prefix needle haystack ||
  match haystack with
  | EmptyString => false
  | String _ rest => str_contains needle rest
  end.

(** [x == JStr s] for a list element [x]. *)
Definition json_is_str (s : string) (x : Json) : bool :=
  match x with
  | JStr s' => String.eqb s' s
  | _ => false
  end.

(** ** Exceptions *)

(** [PyException cls msg] is an instance of the [Exception] subclass named
    [cls] whose [str()] is [msg]; [HTTPException] is FastAPI's. *)
Inductive PyExc :=
| PyException (cls : string) (msg : string)
| HTTPException (status_code : Z) (detail : string).

Definition Exception (msg : string) : PyExc := PyException "Exception" msg.
Definition AttributeError (msg : string) : PyExc := PyException "AttributeError" msg.
Definition TypeError (msg : string) : PyExc := PyException "TypeError" msg.
Definition PermissionError (msg : string) : PyExc := PyException "PermissionError" msg.

(** [str(e)].  Starlette renders an HTTPException as "<status>: <detail>". *)
Definition py_str (e : PyExc) : string :=
  match e with
  | PyException _ msg => msg
  | HTTPException status_code detail => pretty status_code +:+ ": " +:+ detail
  end.

Inductive Outcome (A : Type) :=
| Return (a : A)
| Raise (e : PyExc).
Arguments Return {A} a.
Arguments Raise {A} e.

Definition is_raise {A} (r : Outcome A) : bool :=
  match r with Raise _ => true | Return _ => false end.

(** ** Objects of the SDK and of the service *)

Module Wallet.
Record t := mk { id : string; network_id : string }.
End Wallet.

Record WalletAddress := { address_id : string }.

(** A value held in an instance attribute. *)
Inductive AttrVal :=
| ANone
| AStr (s : string)
| ANum (n : Z)
| ACallable (f : string -> string -> string -> Outcome (list (string * string))).

Definition attr_type_name (v : AttrVal) : string :=
  match v with
  | ANone => "NoneType"
  | AStr _ => "str"
  | ANum _ => "int"
  | ACallable _ => "function"
  end.

(** The response object handed back by [Cdp.request]. *)
Record Response := {
  raise_for_status : option PyExc;
  response_json : Outcome Json
}.

(** What a handler or a client method hands back. *)
Inductive PyVal :=
| VNone
| VJson (j : Json)
| VWallet (w : Wallet.t).

(** ** Observable calls *)

Inductive Event :=
| OsPathExists (path : string)
| OpenForWrite (path : string)
| FileWrite (path : string) (data : string)
| SdkConfigure (api_key_name api_key_private : string)
| SdkWalletCreate (network_id : string)
| SdkCreateAddress (wallet_id : string)
| SdkSaveSeed (wallet_id file_path : string) (encrypt : bool)
| SdkLoadSeed (file_path passphrase : string)
| SdkExportData (wallet_id : string)
| SdkBalances (wallet_id : string)
| SdkCreateWebhook (wallet_id callback_url : string) (event_types : list string)
| SdkGetApiBase
| SdkRequest (method path data : string) (headers : list (string * string))
             (timeout : AttrVal).

Definition is_request (ev : Event) : bool :=
  match ev with SdkRequest _ _ _ _ _ => true | _ => false end.

Definition is_load_event (ev : Event) : bool :=
  match ev with OsPathExists _ | SdkLoadSeed _ _ => true | _ => false end.

Definition is_export (ev : Event) : bool :=
  match ev with SdkExportData _ => true | _ => false end.

Definition is_file_write (ev : Event) : bool :=
  match ev with
  | OpenForWrite _ | FileWrite _ _ | SdkSaveSeed _ _ _ => true
  | _ => false
  end.

(** ** The SDK as an interface *)

(** [P] is the state of the provider (and of the SDK's globals).  Every
    call may fail and may change [P].  [wallet_save_seed] is given the
    present content of the file at [file_path] and whether the file can be
    written; besides its outcome it says what it wrote ([None]: nothing). *)
Class CdpSdk (P : Type) := {
  cdp_configure : string -> string -> P -> Outcome unit * P;
  wallet_create : string -> P -> Outcome Wallet.t * P;
  wallet_create_address : Wallet.t -> P -> Outcome WalletAddress * P;
  wallet_save_seed :
    Wallet.t -> string -> bool -> option string -> bool -> P ->
    Outcome unit * option string * P;
  wallet_load_seed :
    string -> option string -> string -> P -> Outcome (option Wallet.t) * P;
  wallet_export_data : Wallet.t -> P -> Outcome Json * P;
  wallet_balances : Wallet.t -> P -> Outcome Json * P;
  wallet_create_webhook :
    string -> string -> list string -> P -> Outcome Json * P;
  cdp_get_api_base : P -> Outcome string * P;
  cdp_request :
    string -> string -> string -> list (string * string) -> AttrVal -> P ->
    Outcome Response * P;
  json_dumps : Json -> string
}.

(** ** The world and the monad of effects *)

Record World (P : Type) := mkWorld {
  files : gmap string string;
  read_only : gset string;
  sdk_state : P;
  trace : list Event
}.
Arguments mkWorld {P} _ _ _ _.
Arguments files {P} _.
Arguments read_only {P} _.
Arguments sdk_state {P} _.
Arguments trace {P} _.

Definition M (P A : Type) : Type := World P -> Outcome A * World P.

Definition ret {P A} (a : A) : M P A := fun w => (Return a, w).

Definition raise {P A} (e : PyExc) : M P A := fun w => (Raise e, w).

Definition bind {P A B} (m : M P A) (k : A -> M P B) : M P B :=
  fun w =>
    match m w with
    | (Return a, w') => k a w'
    | (Raise e, w') => (Raise e, w')
    end.

Notation "'do' x <- m ; k" := (bind m (fun x => k))
  (at level 10, x name, m at level 100, k at level 200,
   format "'[v' 'do'  x  <-  m ; '/' k ']'").
Notation "m ;; k" := (bind m (fun _ => k))
  (at level 100, k at level 200, right associativity).

(** [try: body  except Exception as e: handler(e)] *)
Definition try_except {P A} (body : M P A) (handler : PyExc -> M P A) : M P A :=
  fun w =>
    match body w with
    | (Return a, w') => (Return a, w')
    | (Raise e, w') => handler e w'
    end.

(** lift a pure outcome *)
Definition lift {P A} (r : Outcome A) : M P A := fun w => (r, w).

Definition emit {P} (ev : Event) : M P unit :=
  fun w => (Return tt, mkWorld (files w) (read_only w) (sdk_state w) (trace w ++ [ev])).

(** An SDK call that touches the provider only. *)
Definition sdk_call {P A} (ev : Event) (f : P -> Outcome A * P) : M P A :=
  fun w =>
    let '(r, s) := f (sdk_state w) in
    (r, mkWorld (files w) (read_only w) s (trace w ++ [ev])).

(** ** The file system *)

(** The codec of a file opened in text mode, without an [encoding]
    argument: [text_codec_error s] is the UnicodeEncodeError that [write]
    raises for a [str] the codec cannot encode (under UTF-8, one that holds
    a lone surrogate), and [None] for a [str] it encodes. *)
Class TextCodec := { text_codec_error : string -> option PyExc }.

(** [os.path.exists(path)] *)
Definition os_path_exists {P} (path : string) : M P bool :=
  emit (OsPathExists path);;
  fun w => (Return (bool_decide (is_Some (files w !! path))), w).

(** [open(path, "w")]: creates the file or truncates it. *)
Definition open_w {P} (path : string) : M P unit :=
  emit (OpenForWrite path);;
  fun w =>
    if bool_decide (path ∈ read_only w)
    then (Raise (PermissionError ("[Errno 13] Permission denied: '" +:+ path +:+ "'")), w)
    else (Return tt, mkWorld (<[path := ""]> (files w)) (read_only w) (sdk_state w) (trace w)).

(** [f.write(data)] on the file just opened at [path], then the close that
    leaving the [with] block performs.  [write] takes a [str] only, and
    encodes it before anything reaches the file. *)
Definition file_write {P} `{!TextCodec} (path : string) (data : Json) : M P unit :=
  match data with
  | JStr s =>
      match text_codec_error s with
      | Some refused => raise refused
      | None =>
          emit (FileWrite path s);;
          fun w => (Return tt, mkWorld (<[path := s]> (files w)) (read_only w)
                                       (sdk_state w) (trace w))
      end
  | other =>
      raise (TypeError ("write() argument must be str, not " +:+ write_arg_name other))
  end.

(** The exception [f.write(data)] raises, if it raises. *)
Definition write_refusal `{!TextCodec} (data : Json) : option PyExc :=
  match data with
  | JStr s => text_codec_error s
  | other => Some (TypeError ("write() argument must be str, not " +:+ write_arg_name other))
  end.


(** Whether the file at [path] may be written. *)
Definition can_write {P} (w : World P) (path : string) : bool :=
  negb (bool_decide (path ∈ read_only w)).

(** The disk after an SDK call that reports having written [written] to
    [path]: nothing changes when it wrote nothing or the file is read-only. *)
Definition after_save (fs : gmap string string) (path : string)
    (written : option string) (writable : bool) : gmap string string :=
  match written with
  | Some blob => if writable then <[path := blob]> fs else fs
  | None => fs
  end.

(** ** The client: [mpc_wallet_service/client.py] *)

Module Client.

(** The attributes [__init__] assigns, and any attribute set on the
    instance from outside the class ([extra_attrs]). *)
Record CDPAgentkitClient := {
  api_key_name : string;
  api_key_private : string;
  seed_storage_path : string;
  extra_attrs : gmap string AttrVal
}.

(** [self.<name>] for a [name] that is not a method of the class: the lookup
    in the instance attributes.  The two names the source reads this way,
    [_get_headers] and [timeout], are not among the methods the class
    defines ([__init__], [create_wallet], [import_wallet], [load_wallet],
    [create_address], [export_wallet], [retrieve_balances],
    [create_webhook], [execute_gasless_transaction]). *)
Definition getattr (self : CDPAgentkitClient) (name : string) : Outcome AttrVal :=
  if String.eqb name "api_key_name" then Return (AStr (api_key_name self))
  else if String.eqb name "api_key_private" then Return (AStr (api_key_private self))
  else if String.eqb name "seed_storage_path" then Return (AStr (seed_storage_path self))
  else match extra_attrs self !! name with
       | Some v => Return v
       | None =>
           Raise (AttributeError
                    ("'CDPAgentkitClient' object has no attribute '" +:+ name +:+ "'"))
       end.

(** [f(method, path, body)] for an attribute value [f]. *)
Definition call_attr (f : AttrVal) (a b c : string)
  : Outcome (list (string * string)) :=
  match f with
  | ACallable g => g a b c
  | other => Raise (TypeError ("'" +:+ attr_type_name other +:+ "' object is not callable"))
  end.

(** [wallet.id] where [wallet] may be [None]. *)
Definition attr_id (wallet : option Wallet.t) : Outcome string :=
  match wallet with
  | Some wl => Return (Wallet.id wl)
  | None => Raise (AttributeError "'NoneType' object has no attribute 'id'")
  end.

Definition default_asset : Json := JStr "USDC".

(** The dict [payload] of [execute_gasless_transaction]. *)
Definition gasless_payload (wallet_id to_address amount : string) (asset : Json) : Json :=
  JObj [("wallet_id", JStr wallet_id);
        ("to", JStr to_address);
        ("amount", JStr amount);
        ("asset", asset);
        ("transfer_type", JStr "GASLESS")].

Definition address_data_of (new_address : WalletAddress) (wallet : Wallet.t) : Json :=
  JObj [("address_id", JStr (address_id new_address));
        ("wallet_id", JStr (Wallet.id wallet));
        ("network_id", JStr (Wallet.network_id wallet))].

Definition wallet_data_of (wallet : Wallet.t) (address_data : Json) : Json :=
  JObj [("wallet_id", JStr (Wallet.id wallet));
        ("network_id", JStr (Wallet.network_id wallet));
        ("address", address_data)].

(** The object as the assignments of [__init__] leave it. *)
Definition instance (name private : string) : CDPAgentkitClient :=
  {| api_key_name := name;
     api_key_private := private;
     seed_storage_path := "my_wallet_seed.json";
     extra_attrs := ∅ |}.

Section Methods.
Context {P : Type} `{!CdpSdk P} `{!TextCodec}.

(** [wallet.save_seed(file_path, encrypt=...)] *)
Definition Wallet_save_seed (wallet : Wallet.t) (file_path : string) (encrypt : bool)
  : M P unit :=
  fun w =>
    let writable := can_write w file_path in
    let '(r, written, s) :=
      wallet_save_seed wallet file_path encrypt (files w !! file_path) writable
                       (sdk_state w) in
    (r, mkWorld (after_save (files w) file_path written writable) (read_only w) s
                (trace w ++ [SdkSaveSeed (Wallet.id wallet) file_path encrypt])).

(** [Wallet.load_seed(file_path=..., passphrase=...)] *)
Definition Wallet_load_seed (file_path passphrase : string) : M P (option Wallet.t) :=
  fun w =>
    sdk_call (SdkLoadSeed file_path passphrase)
             (wallet_load_seed file_path (files w !! file_path) passphrase) w.

(** [CDPAgentkitClient(api_key_name, api_key_private)] *)
Definition CDPAgentkitClient_init (name private : string) : M P CDPAgentkitClient :=
  let self := instance name private in
  sdk_call (SdkConfigure (api_key_name self) (api_key_private self))
           (cdp_configure (api_key_name self) (api_key_private self));;
  ret self.

Definition create_wallet (self : CDPAgentkitClient) (network_id : string) : M P Json :=
  try_except
    (do wallet <- sdk_call (SdkWalletCreate network_id) (wallet_create network_id);
     do wallet_address <-
       sdk_call (SdkCreateAddress (Wallet.id wallet)) (wallet_create_address wallet);
     let address_data := address_data_of wallet_address wallet in
     Wallet_save_seed wallet (seed_storage_path self) true;;
     let wallet_data := wallet_data_of wallet address_data in
     ret wallet_data)
    (fun e => raise (Exception ("Failed to create wallet and address: " +:+ py_str e))).

Definition load_wallet (self : CDPAgentkitClient) : M P (option Wallet.t) :=
  try_except
    (do found <- os_path_exists (seed_storage_path self);
     if negb found then raise (Exception "Wallet seed file not found.")
     else
       do wallet <- Wallet_load_seed (seed_storage_path self) (api_key_private self);
       lift (attr_id wallet);;
       ret wallet)
    (fun e => raise (Exception ("Failed to load wallet: " +:+ py_str e))).

Definition import_wallet (self : CDPAgentkitClient) (import_data : list (string * Json))
  : M P Json :=
  try_except
    (match dict_get import_data "encrypted_seed" with
     | None => raise (Exception "Missing 'encrypted_seed' in payload.")
     | Some encrypted_seed =>
         open_w (seed_storage_path self);;
         file_write (seed_storage_path self) encrypted_seed;;
         do wallet <- load_wallet self;
         match wallet with
         | None => raise (Exception "Failed to load wallet after saving seed.")
         | Some wl =>
             do imported_wallet <-
               sdk_call (SdkExportData (Wallet.id wl)) (wallet_export_data wl);
             ret imported_wallet
         end
     end)
    (fun e => raise (Exception ("Failed to import wallet: " +:+ py_str e))).

Definition create_address (self : CDPAgentkitClient) : M P Json :=
  try_except
    (do wallet <- load_wallet self;
     match wallet with
     | None => raise (Exception "No wallet found to create a new address.")
     | Some wl =>
         do new_address <-
           sdk_call (SdkCreateAddress (Wallet.id wl)) (wallet_create_address wl);
         ret (address_data_of new_address wl)
     end)
    (fun e => raise (Exception ("Failed to create new address: " +:+ py_str e))).

Definition export_wallet (self : CDPAgentkitClient) : M P Json :=
  try_except
    (do wallet <- load_wallet self;
     match wallet with
     | None => raise (Exception "No wallet found to export.")
     | Some wl =>
         do exported_wallet <-
           sdk_call (SdkExportData (Wallet.id wl)) (wallet_export_data wl);
         ret exported_wallet
     end)
    (fun e => raise (Exception ("Failed to export wallet: " +:+ py_str e))).

Definition retrieve_balances (self : CDPAgentkitClient) : M P Json :=
  try_except
    (do wallet <- load_wallet self;
     match wallet with
     | None => raise (Exception "No wallet found to retrieve balances.")
     | Some wl =>
         do balances <- sdk_call (SdkBalances (Wallet.id wl)) (wallet_balances wl);
         ret balances
     end)
    (fun e => raise (Exception ("Failed to retrieve balances: " +:+ py_str e))).

Definition webhook_event_types : list string := ["TRANSACTION_RECEIVED"].

Definition create_webhook (self : CDPAgentkitClient) (callback_url : string) : M P Json :=
  try_except
    (do wallet <- load_wallet self;
     match wallet with
     | None => raise (Exception "No wallet found to create webhook.")
     | Some wl =>
         do webhook <-
           sdk_call (SdkCreateWebhook (Wallet.id wl) callback_url webhook_event_types)
                    (wallet_create_webhook (Wallet.id wl) callback_url
                                           webhook_event_types);
         ret webhook
     end)
    (fun e => raise (Exception ("Failed to create webhook: " +:+ py_str e))).

(** [asset] is [None] when the caller leaves the argument out. *)
Definition execute_gasless_transaction (self : CDPAgentkitClient)
    (wallet_id to_address amount : string) (asset : option Json) : M P Json :=
  let asset := default default_asset asset in
  let request_path := "/v2/transfers" in
  do base <- sdk_call SdkGetApiBase cdp_get_api_base;
  let url := base +:+ request_path in
  let payload := gasless_payload wallet_id to_address amount asset in
  let body := json_dumps payload in
  do get_headers <- lift (getattr self "_get_headers");
  do headers <- lift (call_attr get_headers "POST" request_path body);
  try_except
    (do timeout <- lift (getattr self "timeout");
     do response <-
       sdk_call (SdkRequest "POST" request_path body headers timeout)
                (cdp_request "POST" request_path body headers timeout);
     match raise_for_status response with
     | Some e => raise e
     | None =>
         do tx_data <- lift (response_json response);
         ret tx_data
     end)
    (fun e => raise (Exception ("Failed to execute gasless transaction: " +:+ py_str e))).

End Methods.

End Client.

(** ** The request handlers: [api/main.py] *)

(** [key in body] for a parsed JSON body. *)
Definition py_in (key : string) (body : Json) : Outcome bool :=
  match body with
  | JObj fields => Return (bool_decide (is_Some (dict_get fields key)))
  | JArr items => Return (existsb (json_is_str key) items)
  | JStr s => Return (str_contains key s)
  | other =>
      Raise (TypeError ("argument of type '" +:+ py_type_name other +:+ "' is not iterable"))
  end.

(** [body[key]] for a string [key]. *)
Definition py_getitem (body : Json) (key : string) : Outcome Json :=
  match body with
  | JObj fields =>
      match dict_get fields key with
      | Some v => Return v
      | None => Raise (PyException "KeyError" ("'" +:+ key +:+ "'"))
      end
  | JArr _ => Raise (TypeError "list indices must be integers or slices, not str")
  | JStr _ => Raise (TypeError "string indices must be integers, not 'str'")
  | other => Raise (TypeError ("'" +:+ py_type_name other +:+ "' object is not subscriptable"))
  end.

Module Api.

(** The request object: what [await request.json()] gives. *)
Record Request := { request_json : Outcome Json }.

Record WebhookRequest := { callback_url : string }.

(** [asset] is [None] for a JSON null. *)
Record GaslessTransactionRequest := {
  wallet_id : string;
  to_address : string;
  amount : string;
  asset : option string
}.

(** Building the model from a request body: a field left out takes the
    default of its declaration, [asset: Optional[str] = "USDC"]. *)
Definition GaslessTransactionRequest_init (wallet_id to_address amount : string)
    (asset : option (option string)) : GaslessTransactionRequest :=
  {| wallet_id := wallet_id;
     to_address := to_address;
     amount := amount;
     asset := default (Some "USDC") asset |}.

Definition json_of_optional_str (s : option string) : Json :=
  match s with
  | Some s => JStr s
  | None => JNull
  end.

Section Handlers.
Context {P : Type} `{!CdpSdk P} `{!TextCodec}.
(** the module-level [cdp_client] *)
Variable cdp_client : Client.CDPAgentkitClient.

(** Every handler ends in the same clause:
    [except Exception as e: raise HTTPException(status_code=400, detail=str(e))] *)
Definition bad_request {A} (e : PyExc) : M P A := raise (HTTPException 400 (py_str e)).

Definition create_wallet (network_id : string) : M P PyVal :=
  try_except
    (do wallet_data <- Client.create_wallet cdp_client network_id;
     ret (VJson wallet_data))
    bad_request.

Definition import_wallet (request : Request) : M P PyVal :=
  try_except
    (do body <- lift (request_json request);
     do present <- lift (py_in "encrypted_seed" body);
     if negb present
     then raise (HTTPException 422 "Missing 'encrypted_seed' field in payload")
     else
       do encrypted_seed <- lift (py_getitem body "encrypted_seed");
       let seed_file_path := "my_wallet_seed.json" in
       open_w seed_file_path;;
       file_write seed_file_path encrypted_seed;;
       do imported_wallet <- Client.load_wallet cdp_client;
       ret (match imported_wallet with
            | Some wl => VWallet wl
            | None => VNone
            end))
    bad_request.

Definition export_wallet : M P PyVal :=
  try_except
    (do exported_wallet <- Client.export_wallet cdp_client;
     ret (VJson exported_wallet))
    bad_request.

Definition retrieve_balances : M P PyVal :=
  try_except
    (do balances <- Client.retrieve_balances cdp_client;
     ret (VJson balances))
    bad_request.

Definition create_address : M P PyVal :=
  try_except
    (do new_address <- Client.create_address cdp_client;
     ret (VJson new_address))
    bad_request.

Definition execute_gasless_transaction (tx_request : GaslessTransactionRequest)
  : M P PyVal :=
  try_except
    (do tx_response <-
       Client.execute_gasless_transaction cdp_client
         (wallet_id tx_request) (to_address tx_request) (amount tx_request)
         (Some (json_of_optional_str (asset tx_request)));
     ret (VJson tx_response))
    bad_request.

Definition create_webhook (webhook_request : WebhookRequest) : M P PyVal :=
  try_except
    (do webhook_response <-
       Client.create_webhook cdp_client (callback_url webhook_request);
     ret (VJson webhook_response))
    bad_request.

End Handlers.

End Api.

(** ** A small provider to run the code on *)

Module Demo.

(** The provider's state: whether the SDK has been configured, whether its
    writes to disk fail, and how many wallets and addresses it has handed
    out. *)
Record Provider := {
  configured : bool;
  disk_full : bool;
  wallets_made : nat;
  addresses_made : nat
}.

Definition the_wallet (network_id : string) : Wallet.t :=
  Wallet.mk "wallet-1" network_id.

Definition seed_blob (wallet : Wallet.t) : string :=
  "enc:" +:+ Wallet.id wallet +:+ "@" +:+ Wallet.network_id wallet.

Definition decrypt (blob : string) : option Wallet.t :=
  if String.eqb blob (seed_blob (the_wallet "base-sepolia"))
  then Some (the_wallet "base-sepolia")
  else None.

Definition snapshot (wallet : Wallet.t) : Json :=
  JObj [("wallet_id", JStr (Wallet.id wallet)); ("seed", JStr (seed_blob wallet))].

(** Enough of a serialiser for dicts of strings. *)
Definition dumps_field (kv : string * Json) : string :=
  match kv with
  | (k, JStr s) => k +:+ "=" +:+ s
  | (k, _) => k +:+ "=null"
  end.

Definition dumps (j : Json) : string :=
  match j with
  | JObj fields => String.concat "&" (map dumps_field fields)
  | _ => "null"
  end.

#[global] Instance sdk : CdpSdk Provider := {
  cdp_configure _ _ s :=
    (Return tt,
     {| configured := true;
        disk_full := disk_full s;
        wallets_made := wallets_made s;
        addresses_made := addresses_made s |});
  wallet_create network_id s :=
    (Return (the_wallet network_id),
     {| configured := configured s;
        disk_full := disk_full s;
        wallets_made := S (wallets_made s);
        addresses_made := addresses_made s |});
  wallet_create_address _ s :=
    (Return {| address_id := "0xA" +:+ pretty (addresses_made s) |},
     {| configured := configured s;
        disk_full := disk_full s;
        wallets_made := wallets_made s;
        addresses_made := S (addresses_made s) |});
  wallet_save_seed wallet _ _ _ writable s :=
    if disk_full s || negb writable
    then (Raise (PyException "OSError" "[Errno 28] No space left on device"), None, s)
    else (Return tt, Some (seed_blob wallet), s);
  wallet_load_seed _ content _ s :=
    match content ≫= decrypt with
    | Some wallet => (Return (Some wallet), s)
    | None => (Raise (PyException "ValueError" "Seed could not be decrypted"), s)
    end;
  wallet_export_data wallet s := (Return (snapshot wallet), s);
  wallet_balances _ s := (Return (JObj [("usdc", JStr "0")]), s);
  wallet_create_webhook wallet_id callback_url _ s :=
    (Return (JObj [("wallet_id", JStr wallet_id); ("url", JStr callback_url)]), s);
  cdp_get_api_base s :=
    if configured s
    then (Return "https://api.cdp.coinbase.com", s)
    else (Raise (PyException "ValueError" "Cdp is not configured"), s);
  cdp_request _ _ _ _ _ s :=
    (Return {| raise_for_status := None;
               response_json := Return (JObj [("status", JStr "complete")]) |}, s);
  json_dumps := dumps
}.

Definition fresh : Provider :=
  {| configured := true; disk_full := false; wallets_made := 0; addresses_made := 0 |}.

Definition full : Provider :=
  {| configured := true; disk_full := true; wallets_made := 0; addresses_made := 0 |}.

Definition unconfigured : Provider :=
  {| configured := false; disk_full := false; wallets_made := 0; addresses_made := 0 |}.

(** a machine with no seed file *)
Definition empty_world : World Provider := mkWorld ∅ ∅ fresh [].

(** a machine whose disk cannot take the seed *)
Definition full_world : World Provider := mkWorld ∅ ∅ full [].

(** a machine on which the SDK was never configured *)
Definition unconfigured_world : World Provider := mkWorld ∅ ∅ unconfigured [].

(** a machine holding the seed of an earlier [create_wallet] *)
Definition seeded_world : World Provider :=
  mkWorld {[ "my_wallet_seed.json" := seed_blob (the_wallet "base-sepolia") ]} ∅ fresh [].

(** a machine whose seed file holds something that does not decrypt *)
Definition corrupt_world : World Provider :=
  mkWorld {[ "my_wallet_seed.json" := "corrupt-blob" ]} ∅ fresh [].

(** the client as [api/main.py] builds it *)
Definition client : Client.CDPAgentkitClient := Client.instance "key-id" "key-secret".

Definition json_headers (method path body : string) : Outcome (list (string * string)) :=
  Return [("Content-Type", "application/json")].

(** a client object on which [_get_headers] was set from outside *)
Definition client_with_headers : Client.CDPAgentkitClient :=
  {| Client.api_key_name := "key-id";
     Client.api_key_private := "key-secret";
     Client.seed_storage_path := "my_wallet_seed.json";
     Client.extra_attrs := {[ "_get_headers" := ACallable json_headers ]} |}.

(** a client object on which [_get_headers] and [timeout] were both set *)
Definition patched_client : Client.CDPAgentkitClient :=
  {| Client.api_key_name := "key-id";
     Client.api_key_private := "key-secret";
     Client.seed_storage_path := "my_wallet_seed.json";
     Client.extra_attrs :=
       {[ "_get_headers" := ACallable json_headers; "timeout" := ANum 30 ]} |}.

End Demo.



(** ** Configuration: [config.py] *)

Module Config.

(** The module's three names once it has been imported. *)
Record t := {
  BASE_URL : string;
  API_KEY_NAME : string;
  API_KEY_PRIVATE : string
}.

Definition missing_keys : PyExc :=
  PyException "ValueError"
              "Both API_KEY_NAME and API_KEY_PRIVATE must be set in the .env file!".

(** Importing the module, given the environment as [load_dotenv()] left it.
    [os.getenv] gives [None] for a variable that is not set, and [not x]
    holds of [None] and of the empty string. *)
Definition load (environ : gmap string string) : Outcome t :=
  let base_url := default "https://api.cdp.coinbase.com" (environ !! "BASE_URL") in
  match environ !! "API_KEY_NAME", environ !! "API_KEY_PRIVATE" with
  | Some name, Some private =>
      if String.eqb name "" || String.eqb private ""
      then Raise missing_keys
      else Return {| BASE_URL := base_url;
                     API_KEY_NAME := name;
                     API_KEY_PRIVATE := private |}
  | _, _ => Raise missing_keys
  end.

End Config.

(** The first lines of [api/main.py] (and of the dashboard): import the
    configuration, then build the one client of the process.  Importing
    the client also gives the logger its file sink, and [__init__] logs
    two lines; the logger and its file are outside the model (see the head
    of the file). *)
Definition startup {P : Type} `{!CdpSdk P} (environ : gmap string string)
  : M P Client.CDPAgentkitClient :=
  do config <- lift (Config.load environ);
  Client.CDPAgentkitClient_init (Config.API_KEY_NAME config) (Config.API_KEY_PRIVATE config).

(** ** The dashboard: [app/streamlit_app.py] *)

(** [bool(v)].  A [JFloat] holds the [repr] of its number. *)
Definition py_truthy (v : Json) : bool :=
  match v with
  | JNull => false
  | JBool b => b
  | JNum n => negb (n =? 0)%Z
  | JFloat repr => negb (String.eqb repr "0.0" || String.eqb repr "-0.0")
  | JStr s => negb (String.eqb s "")
  | JArr items => negb (bool_decide (items = []))
  | JObj fields => negb (bool_decide (fields = []))
  end.

(** [d[k] = v]: the key keeps its place if it is there, and goes last if
    it is new. *)
Fixpoint dict_set (d : list (string * Json)) (k : string) (v : Json)
  : list (string * Json) :=
  match d with
  | [] => [(k, v)]
  | (k', v') :: rest =>
      if String.eqb k' k then (k, v) :: rest else (k', v') :: dict_set rest k v
  end.

Module Dashboard.

Definition not_available : Json := JStr "⚠️ Not Available".

(** What the "Create Wallet" section reads out of the dict it got back:
    wallet id, network id and address. *)
Definition wallet_summary (wallet_data : list (string * Json))
  : Outcome (Json * Json * Json) :=
  let wallet_id := default not_available (dict_get wallet_data "wallet_id") in
  let network_id := default not_available (dict_get wallet_data "network_id") in
  match dict_get wallet_data "address" with
  | Some address =>
      match py_getitem address "address_id" with
      | Return wallet_address => Return (wallet_id, network_id, wallet_address)
      | Raise e => Raise e
      end
  | None => Return (wallet_id, network_id, not_available)
  end.

(** What the "Create New Address" section does to the stored wallet data
    once [create_address] has returned [new_address_data]. *)
Definition record_new_address (wallet_data : list (string * Json))
    (new_address_data : Json) : list (string * Json) :=
  let current_addr := default JNull (dict_get wallet_data "address") in
  if py_truthy current_addr then
    match current_addr with
    | JObj _ => dict_set wallet_data "address" (JArr [current_addr; new_address_data])
    | JArr items => dict_set wallet_data "address" (JArr (items ++ [new_address_data]))
    | _ => wallet_data
    end
  else dict_set wallet_data "address" new_address_data.

End Dashboard.

(** ** A provider that runs out *)

Module Flaky.

(** The provider answers [calls_left] more calls and then refuses. *)
Record Provider := { calls_left : nat }.

Definition refused : PyExc := PyException "ApiError" "rate limit exceeded".

Definition spend {A} (s : Provider) (answer : A) : Outcome A * Provider :=
  match calls_left s with
  | O => (Raise refused, s)
  | S n => (Return answer, {| calls_left := n |})
  end.

(** Its [load_seed] gives [None] back, as a method that loads in place
    does. *)
#[global] Instance sdk : CdpSdk Provider := {
  cdp_configure _ _ s := spend s tt;
  wallet_create network_id s := spend s (Wallet.mk "wallet-7" network_id);
  wallet_create_address _ s := spend s {| address_id := "0xF" +:+ pretty (calls_left s) |};
  wallet_save_seed _ _ _ _ _ s := (Return tt, Some "seed-of-wallet-7", s);
  wallet_load_seed _ _ _ s := (Return None, s);
  wallet_export_data _ s := spend s (JObj []);
  wallet_balances _ s := spend s (JObj []);
  wallet_create_webhook _ _ _ s := spend s (JObj []);
  cdp_get_api_base s := spend s "https://api.cdp.coinbase.com";
  cdp_request _ _ _ _ _ s :=
    spend s {| raise_for_status := None; response_json := Return (JObj []) |};
  json_dumps _ := "{}"
}.

Definition world (calls : nat) : World Provider :=
  mkWorld {[ "my_wallet_seed.json" := "seed-of-wallet-7" ]} ∅ {| calls_left := calls |} [].

Definition client : Client.CDPAgentkitClient := Client.instance "key-id" "key-secret".

End Flaky.

(** ** A provider that keeps every seed it saved *)

Module Merging.

Record Provider := { made : nat }.

Definition record_of (wallet : Wallet.t) : string :=
  "[seed of " +:+ Wallet.id wallet +:+ "]".

(** Its [save_seed] adds the record of the wallet to what the file holds,
    as a store of seeds keyed by wallet does; its [load_seed] gives the
    first wallet whatever the file holds. *)
#[global] Instance sdk : CdpSdk Provider := {
  cdp_configure _ _ s := (Return tt, s);
  wallet_create network_id s :=
    (Return (Wallet.mk ("wallet-" +:+ pretty (made s)) network_id),
     {| made := S (made s) |});
  wallet_create_address wallet s := (Return {| address_id := "0xM" |}, s);
  wallet_save_seed wallet _ _ old _ s :=
    (Return tt, Some (default "" old +:+ record_of wallet), s);
  wallet_load_seed _ _ _ s := (Return (Some (Wallet.mk "wallet-0" "base-sepolia")), s);
  wallet_export_data _ s := (Return (JObj []), s);
  wallet_balances _ s := (Return (JObj []), s);
  wallet_create_webhook _ _ _ s := (Return (JObj []), s);
  cdp_get_api_base s := (Return "https://api.cdp.coinbase.com", s);
  cdp_request _ _ _ _ _ s :=
    (Return {| raise_for_status := None; response_json := Return (JObj []) |}, s);
  json_dumps _ := "{}"
}.

Definition empty_world : World Provider := mkWorld ∅ ∅ {| made := 0 |} [].

Definition client : Client.CDPAgentkitClient := Client.instance "key-id" "key-secret".

End Merging.

(** ** A codec to run the code with *)

Module Codec.

(** The bytes that stand for the lone surrogate U+D800. *)
Definition lone_surrogate : string :=
  String (Ascii.ascii_of_nat 237)
    (String (Ascii.ascii_of_nat 160) (String (Ascii.ascii_of_nat 128) EmptyString)).

Definition surrogate_refused : PyExc :=
  PyException "UnicodeEncodeError"
    "'utf-8' codec can't encode character '\ud800' in position 0: surrogates not allowed".

(** It refuses a [str] that starts with the lone surrogate, and encodes
    every other. *)
#[global] Instance utf8 : TextCodec := {
  text_codec_error s :=
    if String.prefix lone_surrogate s then Some surrogate_refused else None
}.

End Codec.

(** ** Names for what the properties speak of *)

(** The operations that work on the stored wallet. *)
Inductive SessionOp :=
| OpCreateAddress
| OpExportWallet
| OpRetrieveBalances
| OpCreateWebhook (callback_url : string).

(** The text each of them puts before the cause when it re-raises. *)
Definition op_prefix (op : SessionOp) : string :=
  match op with
  | OpCreateAddress => "Failed to create new address: "
  | OpExportWallet => "Failed to export wallet: "
  | OpRetrieveBalances => "Failed to retrieve balances: "
  | OpCreateWebhook _ => "Failed to create webhook: "
  end.

(** The exception [load_wallet] raises when there is no seed file. *)
Definition not_found : PyExc :=
  Exception "Failed to load wallet: Wallet seed file not found.".

Section Observations.
Context {P : Type} `{!CdpSdk P}.
Implicit Types (self : Client.CDPAgentkitClient) (w : World P).

Definition run_op self (op : SessionOp) : M P Json :=
  match op with
  | OpCreateAddress => Client.create_address self
  | OpExportWallet => Client.export_wallet self
  | OpRetrieveBalances => Client.retrieve_balances self
  | OpCreateWebhook callback_url => Client.create_webhook self callback_url
  end.

(** The world after the existence check of [load_wallet]. *)
Definition checked self w : World P :=
  mkWorld (files w) (read_only w) (sdk_state w)
          (trace w ++ [OsPathExists (Client.seed_storage_path self)]).

(** The world after [Wallet.load_seed] left the provider in state [s]. *)
Definition loaded self w (s : P) : World P :=
  mkWorld (files w) (read_only w) s
          (trace w ++ [OsPathExists (Client.seed_storage_path self);
                       SdkLoadSeed (Client.seed_storage_path self)
                                   (Client.api_key_private self)]).

(** The world after a [create_wallet] whose three SDK calls were made, the
    last of which reported [written] and left the provider in state [s]. *)
Definition created self w (network_id : string) (wallet : Wallet.t)
    (written : option string) (s : P) : World P :=
  let path := Client.seed_storage_path self in
  mkWorld (after_save (files w) path written (can_write w path)) (read_only w) s
          (trace w ++ [SdkWalletCreate network_id;
                       SdkCreateAddress (Wallet.id wallet);
                       SdkSaveSeed (Wallet.id wallet) path true]).

(** The world after [import_wallet] wrote [blob] to the seed file. *)
Definition seed_written self w (blob : string) : World P :=
  let path := Client.seed_storage_path self in
  mkWorld (<[path := blob]> (files w)) (read_only w) (sdk_state w)
          (trace w ++ [OpenForWrite path; FileWrite path blob]).

(** The same machine with another disk. *)
Definition with_disk w (fs : gmap string string) (ro : gset string) : World P :=
  mkWorld fs ro (sdk_state w) (trace w).

End Observations.

(** * Properties of the client and of the handlers *)

Ltac unfold_monad :=
  unfold bind, try_except, ret, raise, lift, emit, sdk_call,
         os_path_exists, open_w, file_write in *.

Ltac run_load := unfold Client.load_wallet, Client.Wallet_load_seed; unfold_monad; simpl.

Section LoadWallet.
Context {P : Type} `{!CdpSdk P}.
Implicit Types (self : Client.CDPAgentkitClient) (w : World P).

Lemma load_wallet_absent self w :
  files w !! Client.seed_storage_path self = None ->
  Client.load_wallet self w = (Raise not_found, checked self w).
Proof.
  intros Hnone. run_load. rewrite Hnone. reflexivity.
Qed.

Lemma load_wallet_present self w blob :
  files w !! Client.seed_storage_path self = Some blob ->
  Client.load_wallet self w =
    match wallet_load_seed (Client.seed_storage_path self) (Some blob)
                           (Client.api_key_private self) (sdk_state w) with
    | (Return (Some wl), s) => (Return (Some wl), loaded self w s)
    | (Return None, s) =>
        (Raise (Exception ("Failed to load wallet: " +:+
                           "'NoneType' object has no attribute 'id'")),
         loaded self w s)
    | (Raise e, s) =>
        (Raise (Exception ("Failed to load wallet: " +:+ py_str e)), loaded self w s)
    end.
Proof.
  intros Hsome. run_load. rewrite Hsome. simpl. rewrite ?Hsome.
  destruct (wallet_load_seed _ _ _ _) as [[[wl|]|e] s]; simpl;
    unfold loaded; rewrite <- app_assoc; reflexivity.
Qed.

(** [load_wallet] leaves the disk as it found it. *)
Lemma load_wallet_files self w :
  files (snd (Client.load_wallet self w)) = files w /\
  read_only (snd (Client.load_wallet self w)) = read_only w.
Proof.
  destruct (files w !! Client.seed_storage_path self) as [blob|] eqn:Hfile.
  - rewrite (load_wallet_present _ _ _ Hfile).
    destruct (wallet_load_seed _ _ _ _) as [[[wl|]|e] s]; simpl; auto.
  - rewrite (load_wallet_absent _ _ Hfile). simpl; auto.
Qed.

(** [load_wallet] hands back a wallet or raises: never [None]. *)
Lemma load_wallet_not_none self w w' :
  Client.load_wallet self w <> (Return None, w').
Proof.
  destruct (files w !! Client.seed_storage_path self) as [blob|] eqn:Hfile.
  - rewrite (load_wallet_present _ _ _ Hfile).
    destruct (wallet_load_seed _ _ _ _) as [[[wl|]|e] s]; discriminate.
  - rewrite (load_wallet_absent _ _ Hfile). discriminate.
Qed.

(** What [load_wallet] appends to the trace starts with the existence
    check of the seed file. *)
Lemma load_wallet_trace self w :
  exists rest,
    trace (snd (Client.load_wallet self w)) =
    trace w ++ OsPathExists (Client.seed_storage_path self) :: rest.
Proof.
  destruct (files w !! Client.seed_storage_path self) as [blob|] eqn:Hfile.
  - rewrite (load_wallet_present _ _ _ Hfile).
    destruct (wallet_load_seed _ _ _ _) as [[[wl|]|e] s]; simpl; eauto.
  - rewrite (load_wallet_absent _ _ Hfile). simpl; eauto.
Qed.

End LoadWallet.

(** ** The operations on the stored wallet *)

Ltac unfold_ops :=
  unfold run_op, Client.create_address, Client.export_wallet,
         Client.retrieve_balances, Client.create_webhook.

Section SessionOps.
Context {P : Type} `{!CdpSdk P}.
Implicit Types (self : Client.CDPAgentkitClient) (w : World P) (op : SessionOp).

(** A failure of [load_wallet] is re-raised under the operation's own
    prefix, from the world [load_wallet] left. *)
Lemma run_op_load_fails self op w e wl :
  Client.load_wallet self w = (Raise e, wl) ->
  run_op self op w = (Raise (Exception (op_prefix op +:+ py_str e)), wl).
Proof.
  intros Hload. destruct op; unfold_ops; unfold try_except, bind;
    rewrite Hload; reflexivity.
Qed.

(** After a successful [load_wallet] the operation goes on from the world
    [load_wallet] left, and it does not touch the disk. *)
Lemma run_op_load_succeeds self op w wallet wl :
  Client.load_wallet self w = (Return wallet, wl) ->
  (exists rest, trace (snd (run_op self op w)) = trace wl ++ rest) /\
  files (snd (run_op self op w)) = files wl /\
  read_only (snd (run_op self op w)) = read_only wl.
Proof.
  intros Hload.
  destruct op; unfold_ops; unfold try_except, bind; rewrite Hload;
    (destruct wallet as [wallet|];
     [ unfold sdk_call, ret, raise;
       first [ destruct (wallet_create_address _ _) as [[?|?] ?]
             | destruct (wallet_export_data _ _) as [[?|?] ?]
             | destruct (wallet_balances _ _) as [[?|?] ?]
             | destruct (wallet_create_webhook _ _ _ _) as [[?|?] ?] ];
       simpl; (split; [eexists; reflexivity | split; reflexivity])
     | simpl; split; [exists []; rewrite app_nil_r; reflexivity | split; reflexivity] ]).
Qed.

Lemma run_op_files self op w :
  files (snd (run_op self op w)) = files w /\
  read_only (snd (run_op self op w)) = read_only w.
Proof.
  destruct (load_wallet_files self w) as [Hf Hr].
  destruct (Client.load_wallet self w) as [[wallet|e] wl] eqn:Hload.
  - destruct (run_op_load_succeeds self op w wallet wl Hload) as (_ & Hf' & Hr').
    simpl in Hf, Hr. rewrite Hf', Hr'. auto.
  - rewrite (run_op_load_fails self op w e wl Hload). auto.
Qed.

(** C5. [load_wallet] raises "Wallet seed file not found." (the spec's
    NotFoundError) when there is no seed file, before any SDK call; when the
    file is there and [Wallet.load_seed], called with the held passphrase
    [api_key_private], fails (the spec's DecryptionError), it raises with
    that cause; when [load_seed] gives a wallet, it returns that wallet.
    With no seed file, each of create_address, export_wallet,
    retrieve_balances and create_webhook raises with the not-found cause and
    leaves the disk and the provider as they were: the existence check is
    all that happened. *)
Theorem load_wallet_outcomes self w :
  let path := Client.seed_storage_path self in
  let passphrase := Client.api_key_private self in
  (files w !! path = None ->
   Client.load_wallet self w = (Raise not_found, checked self w)) /\
  (forall blob e s,
     files w !! path = Some blob ->
     wallet_load_seed path (Some blob) passphrase (sdk_state w) = (Raise e, s) ->
     Client.load_wallet self w =
       (Raise (Exception ("Failed to load wallet: " +:+ py_str e)), loaded self w s)) /\
  (forall blob wallet s,
     files w !! path = Some blob ->
     wallet_load_seed path (Some blob) passphrase (sdk_state w) = (Return (Some wallet), s) ->
     Client.load_wallet self w = (Return (Some wallet), loaded self w s)) /\
  (forall op,
     files w !! path = None ->
     run_op self op w =
       (Raise (Exception (op_prefix op +:+ py_str not_found)), checked self w)).
Proof.
  intros path passphrase. repeat split.
  - apply load_wallet_absent.
  - intros blob e s Hfile Hsdk.
    rewrite (load_wallet_present _ _ _ Hfile). fold path passphrase.
    rewrite Hsdk. reflexivity.
  - intros blob wallet s Hfile Hsdk.
    rewrite (load_wallet_present _ _ _ Hfile). fold path passphrase.
    rewrite Hsdk. reflexivity.
  - intros op Hfile. apply run_op_load_fails, load_wallet_absent, Hfile.
Qed.

(** C9. [create_address] leaves every file as it found it, whatever its
    outcome, and what it adds to the trace holds no write: no [open] for
    writing, no [write], no [save_seed]. *)
Theorem create_address_keeps_seed_file self w :
  files (snd (Client.create_address self w)) = files w /\
  exists added,
    trace (snd (Client.create_address self w)) = trace w ++ added /\
    List.filter is_file_write added = [].
Proof.
  split; [apply (run_op_files self OpCreateAddress w)|].
  unfold Client.create_address, try_except, bind.
  destruct (files w !! Client.seed_storage_path self) as [blob|] eqn:Hfile.
  - rewrite (load_wallet_present _ _ _ Hfile).
    destruct (wallet_load_seed _ _ _ _) as [[[wallet|]|e] s]; simpl.
    + unfold sdk_call; simpl.
      destruct (wallet_create_address _ _) as [[addr|e] s']; simpl;
        rewrite <- app_assoc; eexists; split; reflexivity.
    + eexists; split; reflexivity.
    + eexists; split; reflexivity.
  - rewrite (load_wallet_absent _ _ Hfile). simpl. eexists; split; reflexivity.
Qed.

End SessionOps.

(** ** The gasless transfer *)

Ltac run_gasless :=
  unfold Client.execute_gasless_transaction; unfold_monad; cbn [default fst snd].

Ltac step_gasless self :=
  repeat first
    [ progress cbn [fst snd trace files read_only sdk_state]
    | match goal with
      | |- context [cdp_get_api_base ?st] =>
          destruct (cdp_get_api_base st) as [[base|e] s1] eqn:Hbase
      | |- context [Client.getattr self "_get_headers"] =>
          destruct (Client.getattr self "_get_headers") as [g|e] eqn:Hget
      | |- context [Client.call_attr ?f ?a ?b ?c] =>
          destruct (Client.call_attr f a b c) as [hs|e] eqn:Hcall
      | |- context [Client.getattr self "timeout"] =>
          destruct (Client.getattr self "timeout") as [t|e] eqn:Htimeout
      | |- context [cdp_request ?a ?b ?c ?d ?x ?st] =>
          destruct (cdp_request a b c d x st) as [[resp|e] s2] eqn:Hreq
      | |- context [raise_for_status ?r] =>
          destruct (raise_for_status r) as [e|] eqn:Hstatus
      | |- context [response_json ?r] =>
          destruct (response_json r) as [j|e] eqn:Hjson
      end ].

Section Gasless.
Context {P : Type} `{!CdpSdk P}.
Implicit Types (self : Client.CDPAgentkitClient) (w : World P).

(** [__init__] hands back the object with its three attributes and no
    other. *)
Lemma init_returns_instance name private w self w' :
  Client.CDPAgentkitClient_init name private w = (Return self, w') ->
  self = Client.instance name private.
Proof.
  unfold Client.CDPAgentkitClient_init; unfold_monad.
  destruct (cdp_configure _ _ _) as [[[]|e] s]; cbn; congruence.
Qed.

(** A name that is none of the three attributes is not found on such an
    object. *)
Lemma getattr_instance_missing name private attr :
  String.eqb attr "api_key_name" = false ->
  String.eqb attr "api_key_private" = false ->
  String.eqb attr "seed_storage_path" = false ->
  Client.getattr (Client.instance name private) attr =
    Raise (AttributeError ("'CDPAgentkitClient' object has no attribute '" +:+ attr +:+ "'")).
Proof.
  intros H1 H2 H3. unfold Client.getattr. rewrite H1, H2, H3.
  cbn [Client.extra_attrs Client.instance]. rewrite lookup_empty. reflexivity.
Qed.

Lemma getattr_timeout_missing self :
  Client.extra_attrs self !! "timeout" = None ->
  Client.getattr self "timeout" =
    Raise (AttributeError "'CDPAgentkitClient' object has no attribute 'timeout'").
Proof. intros Hnone. unfold Client.getattr. cbn. rewrite Hnone. reflexivity. Qed.

(** The method never looks at the disk: it neither reads nor writes a file. *)
Lemma gasless_files self wallet_id to_address amount asset w :
  files (snd (Client.execute_gasless_transaction self wallet_id to_address amount asset w))
  = files w.
Proof. run_gasless. step_gasless self; reflexivity. Qed.

(** Whatever the method adds to the trace is the URL lookup, followed by at
    most the one request. *)
Lemma gasless_trace self wallet_id to_address amount asset w :
  let body := json_dumps (Client.gasless_payload wallet_id to_address amount
                                                 (default Client.default_asset asset)) in
  let w' := snd (Client.execute_gasless_transaction self wallet_id to_address amount asset w) in
  trace w' = trace w ++ [SdkGetApiBase] \/
  exists headers timeout,
    trace w' = trace w ++ [SdkGetApiBase;
                           SdkRequest "POST" "/v2/transfers" body headers timeout].
Proof.
  run_gasless. step_gasless self;
    try (left; reflexivity);
    right; eexists _, _; rewrite <- app_assoc; reflexivity.
Qed.

(** C1. On a client as [__init__] builds it, [_get_headers] and [timeout]
    are not attributes.  [execute_gasless_transaction] therefore raises for
    every argument tuple, and the only SDK call it makes is the URL lookup:
    no request is sent.  When the lookup returns, the exception is the
    AttributeError for [_get_headers] itself, raised before the [try] block
    and so not the re-raised "Failed to execute gasless transaction: ..."
    error; when the lookup raises, that exception escapes as it is.  A
    missing [timeout] alone is enough to keep the request from being sent,
    on any client object. *)
Theorem gasless_raises_before_request name private wallet_id to_address amount asset w :
  let self := Client.instance name private in
  let run := Client.execute_gasless_transaction self wallet_id to_address amount asset w in
  let no_get_headers :=
    AttributeError "'CDPAgentkitClient' object has no attribute '_get_headers'" in
  Client.getattr self "_get_headers" = Raise no_get_headers /\
  Client.getattr self "timeout" =
    Raise (AttributeError "'CDPAgentkitClient' object has no attribute 'timeout'") /\
  is_raise (fst run) = true /\
  trace (snd run) = trace w ++ [SdkGetApiBase] /\
  (forall base s,
     cdp_get_api_base (sdk_state w) = (Return base, s) ->
     fst run = Raise no_get_headers /\
     forall cause,
       fst run <> Raise (Exception ("Failed to execute gasless transaction: " +:+ cause))) /\
  (forall e s,
     cdp_get_api_base (sdk_state w) = (Raise e, s) -> fst run = Raise e) /\
  (forall other : Client.CDPAgentkitClient,
     Client.extra_attrs other !! "timeout" = None ->
     List.filter is_request
       (trace (snd (Client.execute_gasless_transaction other wallet_id to_address
                                                       amount asset w)))
     = List.filter is_request (trace w)).
Proof.
  intros self run no_get_headers.
  assert (Hget : Client.getattr self "_get_headers" = Raise no_get_headers)
    by (apply getattr_instance_missing; reflexivity).
  assert (Htimeout : Client.getattr self "timeout" =
            Raise (AttributeError "'CDPAgentkitClient' object has no attribute 'timeout'"))
    by (apply getattr_instance_missing; reflexivity).
  assert (Hrun : run =
            match cdp_get_api_base (sdk_state w) with
            | (Return _, s) =>
                (Raise no_get_headers,
                 mkWorld (files w) (read_only w) s (trace w ++ [SdkGetApiBase]))
            | (Raise e, s) =>
                (Raise e, mkWorld (files w) (read_only w) s (trace w ++ [SdkGetApiBase]))
            end).
  { subst run. run_gasless. rewrite Hget.
    destruct (cdp_get_api_base (sdk_state w)) as [[base|e] s]; reflexivity. }
  split; [exact Hget|]. split; [exact Htimeout|].
  rewrite Hrun. clear Hrun run.
  split; [destruct (cdp_get_api_base _) as [[base|e] s]; reflexivity|].
  split; [destruct (cdp_get_api_base _) as [[base|e] s]; reflexivity|].
  split; [|split].
  - intros base s Hbase. rewrite Hbase. split; [reflexivity|].
    intros cause. discriminate.
  - intros e s Hbase. rewrite Hbase. reflexivity.
  - intros other Hnone.
    pose proof (getattr_timeout_missing other Hnone) as Hother.
    run_gasless. rewrite Hother.
    destruct (cdp_get_api_base (sdk_state w)) as [[base|e] s]; cbn [fst snd trace];
      [ destruct (Client.getattr other "_get_headers") as [g|e];
        [ destruct (Client.call_attr g _ _ _) as [hs|e] |] |];
      cbn [fst snd trace]; rewrite List.filter_app, app_nil_r; reflexivity.
Qed.

(** C10. The payload the method builds carries the caller's [wallet_id]
    unchanged, the transfer type "GASLESS", and the asset handed in, which
    is "USDC" when the caller leaves it out (in the method's signature and
    in the request model of the API alike).  Any request the method sends
    is a POST to /v2/transfers with the serialised payload as its body; on
    a client object that has [_get_headers] and [timeout], and a provider
    that answers the URL lookup, it is sent.  The seed file plays no part:
    the method makes no existence check and no [load_seed], and its outcome
    is the same on every disk. *)
Theorem gasless_transfer_request self wallet_id to_address amount asset w :
  let chosen := default (JStr "USDC") asset in
  let payload := Client.gasless_payload wallet_id to_address amount chosen in
  let body := json_dumps payload in
  let run := Client.execute_gasless_transaction self wallet_id to_address amount asset in
  (exists fields,
     payload = JObj fields /\
     dict_get fields "transfer_type" = Some (JStr "GASLESS") /\
     dict_get fields "wallet_id" = Some (JStr wallet_id) /\
     dict_get fields "to" = Some (JStr to_address) /\
     dict_get fields "amount" = Some (JStr amount) /\
     dict_get fields "asset" = Some chosen) /\
  (asset = None -> chosen = JStr "USDC") /\
  Api.asset (Api.GaslessTransactionRequest_init wallet_id to_address amount None)
    = Some "USDC" /\
  (forall method path data headers timeout,
     In (SdkRequest method path data headers timeout) (trace (snd (run w))) ->
     In (SdkRequest method path data headers timeout) (trace w) \/
     (method = "POST" /\ path = "/v2/transfers" /\ data = body)) /\
  (forall get_headers headers timeout base s,
     Client.getattr self "_get_headers" = Return (ACallable get_headers) ->
     Client.getattr self "timeout" = Return timeout ->
     cdp_get_api_base (sdk_state w) = (Return base, s) ->
     get_headers "POST" "/v2/transfers" body = Return headers ->
     trace (snd (run w)) =
       trace w ++ [SdkGetApiBase;
                   SdkRequest "POST" "/v2/transfers" body headers timeout]) /\
  List.filter is_load_event (trace (snd (run w))) = List.filter is_load_event (trace w) /\
  (forall fs ro,
     fst (run (with_disk w fs ro)) = fst (run w) /\
     trace (snd (run (with_disk w fs ro))) = trace (snd (run w)) /\
     files (snd (run (with_disk w fs ro))) = fs).
Proof.
  intros chosen payload body run.
  split; [eexists; split; [reflexivity|]; repeat split; reflexivity|].
  split; [intros ->; reflexivity|].
  split; [reflexivity|].
  split; [|split; [|split]].
  - intros method path data headers timeout Hin.
    destruct (gasless_trace self wallet_id to_address amount asset w) as [Ht|(hs & t & Ht)];
      subst run; cbn zeta in Ht; rewrite Ht in Hin; apply in_app_or in Hin.
    + destruct Hin as [Hin|[Heq|[]]]; [left; exact Hin | discriminate].
    + destruct Hin as [Hin|[Heq|[Heq|[]]]]; [left; exact Hin | discriminate |].
      right. injection Heq as <- <- <- _ _. repeat split.
  - intros get_headers headers timeout base s Hget Htimeout Hbase Hcall.
    subst run body payload chosen. run_gasless. unfold Client.default_asset.
    rewrite Hbase, Hget. cbn [Client.call_attr]. rewrite Hcall, Htimeout.
    cbn [fst snd sdk_state trace].
    destruct (cdp_request _ _ _ _ _ _) as [[resp|e] s2]; cbn [fst snd trace].
    + destruct (raise_for_status resp) as [e|]; cbn [fst snd trace];
        [|destruct (response_json resp) as [j|e]; cbn [fst snd trace]];
        rewrite <- app_assoc; reflexivity.
    + rewrite <- app_assoc; reflexivity.
  - destruct (gasless_trace self wallet_id to_address amount asset w) as [Ht|(hs & t & Ht)];
      subst run; cbn zeta in Ht; rewrite Ht, List.filter_app, app_nil_r; reflexivity.
  - intros fs ro. subst run. unfold with_disk. run_gasless.
    step_gasless self; repeat split; reflexivity.
Qed.

End Gasless.

(** ** Creating and importing a wallet *)

Section CreateImport.
Context {P : Type} `{!CdpSdk P} `{!TextCodec}.
Implicit Types (self : Client.CDPAgentkitClient) (w : World P).

(** [create_wallet], call by call. *)
Lemma create_wallet_run self network_id w :
  let path := Client.seed_storage_path self in
  let failed e := Exception ("Failed to create wallet and address: " +:+ py_str e) in
  Client.create_wallet self network_id w =
    match wallet_create network_id (sdk_state w) with
    | (Raise e, s1) =>
        (Raise (failed e),
         mkWorld (files w) (read_only w) s1 (trace w ++ [SdkWalletCreate network_id]))
    | (Return wallet, s1) =>
        match wallet_create_address wallet s1 with
        | (Raise e, s2) =>
            (Raise (failed e),
             mkWorld (files w) (read_only w) s2
                     (trace w ++ [SdkWalletCreate network_id;
                                  SdkCreateAddress (Wallet.id wallet)]))
        | (Return address, s2) =>
            match wallet_save_seed wallet path true (files w !! path)
                                   (can_write w path) s2 with
            | (Raise e, written, s3) =>
                (Raise (failed e), created self w network_id wallet written s3)
            | (Return _, written, s3) =>
                (Return (Client.wallet_data_of wallet
                           (Client.address_data_of address wallet)),
                 created self w network_id wallet written s3)
            end
        end
    end.
Proof.
  intros path failed.
  unfold Client.create_wallet, Client.Wallet_save_seed, created; unfold_monad.
  cbn [fst snd sdk_state files read_only trace can_write].
  destruct (wallet_create _ _) as [[wallet|e] s1]; [|reflexivity].
  cbn [fst snd sdk_state files read_only trace].
  destruct (wallet_create_address _ _) as [[address|e] s2];
    [|rewrite <- app_assoc; reflexivity].
  cbn [fst snd sdk_state files read_only trace]. fold path.
  unfold can_write at 1 2. cbn [read_only files].
  destruct (wallet_save_seed _ _ _ _ _ _) as [[[[]|e] written] s3];
    cbn [fst snd]; rewrite <- !app_assoc; reflexivity.
Qed.


(** [import_wallet] on a payload whose seed is a string that the codec
    encodes, on a writable seed file: the write, then [load_wallet], then
    the export. *)
Lemma import_wallet_run self import_data blob w :
  dict_get import_data "encrypted_seed" = Some (JStr blob) ->
  text_codec_error blob = None ->
  can_write w (Client.seed_storage_path self) = true ->
  let failed e := Exception ("Failed to import wallet: " +:+ py_str e) in
  Client.import_wallet self import_data w =
    match Client.load_wallet self (seed_written self w blob) with
    | (Raise e, w2) => (Raise (failed e), w2)
    | (Return None, w2) =>
        (Raise (failed (Exception "Failed to load wallet after saving seed.")), w2)
    | (Return (Some wallet), w2) =>
        match wallet_export_data wallet (sdk_state w2) with
        | (Return snapshot, s) =>
            (Return snapshot,
             mkWorld (files w2) (read_only w2) s
                     (trace w2 ++ [SdkExportData (Wallet.id wallet)]))
        | (Raise e, s) =>
            (Raise (failed e),
             mkWorld (files w2) (read_only w2) s
                     (trace w2 ++ [SdkExportData (Wallet.id wallet)]))
        end
    end.
Proof.
  intros Hseed Hcodec Hwrite failed.
  unfold can_write in Hwrite. apply negb_true_iff in Hwrite.
  unfold Client.import_wallet. rewrite Hseed.
  unfold try_except at 1. unfold bind at 1 2. unfold open_w, file_write.
  rewrite Hcodec.
  unfold bind at 1 2, emit. cbn [read_only files sdk_state trace].
  rewrite Hwrite. cbn [read_only files sdk_state trace].
  rewrite insert_insert_eq, <- app_assoc. cbn [app].
  unfold seed_written. unfold bind at 1.
  destruct (Client.load_wallet self _) as [[[wallet|]|e] w2]; try reflexivity.
  unfold bind, sdk_call, ret.
  destruct (wallet_export_data _ _) as [[snapshot|e] s]; reflexivity.
Qed.

(** [import_wallet] on a seed that [write] refuses, on a writable seed
    file: the file was opened, and so emptied, and that is all. *)
Lemma import_wallet_refused self import_data seed refused w :
  dict_get import_data "encrypted_seed" = Some seed ->
  write_refusal seed = Some refused ->
  can_write w (Client.seed_storage_path self) = true ->
  Client.import_wallet self import_data w =
    (Raise (Exception ("Failed to import wallet: " +:+ py_str refused)),
     mkWorld (<[Client.seed_storage_path self := ""]> (files w)) (read_only w)
             (sdk_state w) (trace w ++ [OpenForWrite (Client.seed_storage_path self)])).
Proof.
  intros Hseed Hrefused Hwrite.
  unfold can_write in Hwrite. apply negb_true_iff in Hwrite.
  unfold Client.import_wallet. rewrite Hseed.
  unfold try_except, bind, open_w, file_write, emit, bind, raise.
  cbn [read_only files sdk_state trace]. rewrite Hwrite.
  destruct seed; cbn [write_refusal] in Hrefused;
    try (injection Hrefused as <-; reflexivity).
  rewrite Hrefused. reflexivity.
Qed.

(** C8. A [create_wallet] that returns has asked the provider for a wallet
    on [network_id], then for one address of that wallet, then had the SDK
    save the seed, encrypted, to the seed file: these three calls, in this
    order, and no other.  The seed is then in the file: what [save_seed]
    wrote is what the seed file holds when [create_wallet] returns.  What
    it returns is
    {wallet_id, network_id, address: {address_id, wallet_id, network_id}},
    filled from the wallet and the address the provider gave.  And it does
    return, with the seed in the file, whenever the three calls succeed. *)
Theorem create_wallet_success self network_id w :
  let path := Client.seed_storage_path self in
  (forall wallet_data w',
     Client.create_wallet self network_id w = (Return wallet_data, w') ->
     exists wallet address written s1 s2 s3,
       wallet_create network_id (sdk_state w) = (Return wallet, s1) /\
       wallet_create_address wallet s1 = (Return address, s2) /\
       wallet_save_seed wallet path true (files w !! path) (can_write w path) s2
         = (Return tt, written, s3) /\
       trace w' = trace w ++ [SdkWalletCreate network_id;
                              SdkCreateAddress (Wallet.id wallet);
                              SdkSaveSeed (Wallet.id wallet) path true] /\
       files w' = after_save (files w) path written (can_write w path) /\
       (forall blob,
          written = Some blob -> can_write w path = true ->
          files w' !! path = Some blob) /\
       wallet_data =
         JObj [("wallet_id", JStr (Wallet.id wallet));
               ("network_id", JStr (Wallet.network_id wallet));
               ("address",
                JObj [("address_id", JStr (address_id address));
                      ("wallet_id", JStr (Wallet.id wallet));
                      ("network_id", JStr (Wallet.network_id wallet))])]) /\
  (forall wallet address written s1 s2 s3,
     wallet_create network_id (sdk_state w) = (Return wallet, s1) ->
     wallet_create_address wallet s1 = (Return address, s2) ->
     wallet_save_seed wallet path true (files w !! path) (can_write w path) s2
       = (Return tt, written, s3) ->
     Client.create_wallet self network_id w =
       (Return (Client.wallet_data_of wallet (Client.address_data_of address wallet)),
        created self w network_id wallet written s3)) /\
  (forall wallet address blob s1 s2 s3,
     can_write w path = true ->
     wallet_create network_id (sdk_state w) = (Return wallet, s1) ->
     wallet_create_address wallet s1 = (Return address, s2) ->
     wallet_save_seed wallet path true (files w !! path) true s2
       = (Return tt, Some blob, s3) ->
     fst (Client.create_wallet self network_id w) =
       Return (Client.wallet_data_of wallet (Client.address_data_of address wallet)) /\
     files (snd (Client.create_wallet self network_id w)) !! path = Some blob).
Proof.
  intros path. split; [|split].
  - intros wallet_data w'. rewrite create_wallet_run. cbn zeta. fold path.
    destruct (wallet_create _ _) as [[wallet|e] s1] eqn:Hcreate; [|discriminate].
    destruct (wallet_create_address _ _) as [[address|e] s2] eqn:Haddress;
      [|discriminate].
    destruct (wallet_save_seed _ _ _ _ _ _) as [[[[]|e] written] s3] eqn:Hsave;
      [|discriminate].
    intros [= <- <-]. exists wallet, address, written, s1, s2, s3.
    repeat split; try assumption.
    intros blob -> Hwrite. unfold created, after_save. cbn [files]. fold path.
    rewrite Hwrite. apply lookup_insert_eq.
  - intros wallet address written s1 s2 s3 Hcreate Haddress Hsave.
    rewrite create_wallet_run. cbn zeta. fold path.
    rewrite Hcreate, Haddress, Hsave. reflexivity.
  - intros wallet address blob s1 s2 s3 Hwrite Hcreate Haddress Hsave.
    rewrite create_wallet_run. cbn zeta. fold path.
    rewrite Hcreate, Haddress, Hwrite, Hsave. cbn [fst snd].
    split; [reflexivity|].
    unfold created, after_save. cbn [files]. fold path.
    rewrite Hwrite. apply lookup_insert_eq.
Qed.

(** C4, as the code has it.  When the provider has made the wallet and the
    address and saving the seed then fails with [e], [create_wallet] raises
    "Failed to create wallet and address: <e>" and returns nothing: the
    caller gets no wallet id, network id or address.  The wallet and the
    address stand on the provider's side. *)
Theorem create_wallet_persist_failure self network_id w wallet address e written s1 s2 s3 :
  let path := Client.seed_storage_path self in
  wallet_create network_id (sdk_state w) = (Return wallet, s1) ->
  wallet_create_address wallet s1 = (Return address, s2) ->
  wallet_save_seed wallet path true (files w !! path) (can_write w path) s2
    = (Raise e, written, s3) ->
  Client.create_wallet self network_id w =
    (Raise (Exception ("Failed to create wallet and address: " +:+ py_str e)),
     created self w network_id wallet written s3) /\
  (forall wallet_data,
     fst (Client.create_wallet self network_id w) <> Return wallet_data) /\
  sdk_state (snd (Client.create_wallet self network_id w)) = s3.
Proof.
  intros path Hcreate Haddress Hsave.
  rewrite create_wallet_run. cbn zeta. fold path.
  rewrite Hcreate, Haddress, Hsave. repeat split. intros wallet_data. discriminate.
Qed.

End CreateImport.

(** ** Which operations load the wallet *)

Section Rehydration.
Context {P : Type} `{!CdpSdk P}.
Implicit Types (self : Client.CDPAgentkitClient) (w : World P) (op : SessionOp).

(** An operation on the stored wallet runs [load_wallet] first, on the
    world it is called in. *)
Lemma run_op_after_load self op w :
  exists rest,
    trace (snd (run_op self op w)) = trace (snd (Client.load_wallet self w)) ++ rest.
Proof.
  destruct (Client.load_wallet self w) as [[wallet|e] wl] eqn:Hload.
  - destruct (run_op_load_succeeds self op w wallet wl Hload) as [Hrest _]. exact Hrest.
  - rewrite (run_op_load_fails self op w e wl Hload). exists []. cbn [snd].
    rewrite app_nil_r. reflexivity.
Qed.

Lemma run_op_checks_seed_file self op w :
  exists rest,
    trace (snd (run_op self op w)) =
    trace w ++ OsPathExists (Client.seed_storage_path self) :: rest.
Proof.
  destruct (run_op_after_load self op w) as [rest1 H1].
  destruct (load_wallet_trace self w) as [rest2 H2].
  exists (rest2 ++ rest1). rewrite H1, H2, <- app_assoc. reflexivity.
Qed.

(** C7, as the code has it.  Each of create_address, export_wallet,
    retrieve_balances and create_webhook runs [load_wallet] on every call,
    on the disk as it is at that call: its trace continues that of
    [load_wallet], starting with the existence check of the seed file; a
    failure of [load_wallet] is the operation's failure; and a second
    operation, run after a first, checks and loads again.
    [execute_gasless_transaction] does not load the wallet: it makes no
    existence check and no [load_seed]. *)
Theorem session_ops_rehydrate self op w :
  let path := Client.seed_storage_path self in
  let after := snd (run_op self op w) in
  (exists rest, trace after = trace (snd (Client.load_wallet self w)) ++ rest) /\
  (exists rest, trace after = trace w ++ OsPathExists path :: rest) /\
  (forall e,
     fst (Client.load_wallet self w) = Raise e ->
     fst (run_op self op w) = Raise (Exception (op_prefix op +:+ py_str e))) /\
  (forall op2, exists rest,
     trace (snd (run_op self op2 after)) = trace after ++ OsPathExists path :: rest) /\
  (forall wallet_id to_address amount asset,
     List.filter is_load_event
       (trace (snd (Client.execute_gasless_transaction self wallet_id to_address
                                                       amount asset w)))
     = List.filter is_load_event (trace w)).
Proof.
  intros path after.
  split; [apply run_op_after_load|].
  split; [apply run_op_checks_seed_file|].
  split; [|split].
  - intros e Hfails.
    destruct (Client.load_wallet self w) as [r wl] eqn:Hload. cbn [fst] in Hfails.
    subst r. rewrite (run_op_load_fails self op w e wl Hload). reflexivity.
  - intros op2. apply run_op_checks_seed_file.
  - intros wallet_id to_address amount asset.
    destruct (gasless_trace self wallet_id to_address amount asset w)
      as [Ht|(headers & timeout & Ht)];
      cbn zeta in Ht; rewrite Ht, List.filter_app, app_nil_r; reflexivity.
Qed.

End Rehydration.

(** ** The import handler *)

Section ApiImport.
Context {P : Type} `{!CdpSdk P} `{!TextCodec}.
Implicit Types (cdp_client : Client.CDPAgentkitClient) (w : World P).

(** Whatever the import handler raises leaves it as an HTTPException with
    status 400. *)
Lemma api_import_raises_400 cdp_client request w e :
  fst (Api.import_wallet cdp_client request w) = Raise e ->
  exists detail, e = HTTPException 400 detail.
Proof.
  unfold Api.import_wallet, try_except, Api.bad_request, raise.
  match goal with |- context [match ?body w with _ => _ end] =>
    destruct (body w) as [[v|e'] w'] end; cbn [fst].
  - discriminate.
  - intros [= <-]. eexists; reflexivity.
Qed.

(** The handler on a JSON object whose seed is a string that the codec
    encodes, on a writable seed file: the write, then [load_wallet], whose
    wallet object is the value returned. *)
Lemma api_import_run name private fields blob w :
  let self := Client.instance name private in
  dict_get fields "encrypted_seed" = Some (JStr blob) ->
  text_codec_error blob = None ->
  can_write w "my_wallet_seed.json" = true ->
  Api.import_wallet self {| Api.request_json := Return (JObj fields) |} w =
    match Client.load_wallet self (seed_written self w blob) with
    | (Raise e, w2) => (Raise (HTTPException 400 (py_str e)), w2)
    | (Return None, w2) => (Return VNone, w2)
    | (Return (Some wallet), w2) => (Return (VWallet wallet), w2)
    end.
Proof.
  intros self Hseed Hcodec Hwrite.
  unfold can_write in Hwrite. apply negb_true_iff in Hwrite.
  assert (Hpresent : bool_decide (is_Some (Some (JStr blob))) = true)
    by (apply bool_decide_eq_true; eauto).
  unfold Api.import_wallet, try_except, bind, lift, open_w, emit, bind, ret.
  cbn [Api.request_json py_in py_getitem].
  rewrite Hseed, Hpresent. cbn [negb read_only files sdk_state trace].
  rewrite Hwrite. cbn [read_only files sdk_state trace].
  unfold file_write. rewrite Hcodec. unfold bind, emit.
  cbn [read_only files sdk_state trace].
  rewrite insert_insert_eq, <- app_assoc. cbn [app].
  unfold seed_written. cbn [Client.seed_storage_path self Client.instance].
  destruct (Client.load_wallet _ _) as [[[wallet|]|e] w2]; reflexivity.
Qed.

(** The handler on a seed that [write] refuses, on a writable seed file:
    the file was opened, and so emptied, and that is all. *)
Lemma api_import_refused cdp_client fields seed refused w :
  dict_get fields "encrypted_seed" = Some seed ->
  write_refusal seed = Some refused ->
  can_write w "my_wallet_seed.json" = true ->
  Api.import_wallet cdp_client {| Api.request_json := Return (JObj fields) |} w =
    (Raise (HTTPException 400 (py_str refused)),
     mkWorld (<["my_wallet_seed.json" := ""]> (files w)) (read_only w) (sdk_state w)
             (trace w ++ [OpenForWrite "my_wallet_seed.json"])).
Proof.
  intros Hseed Hrefused Hwrite.
  unfold can_write in Hwrite. apply negb_true_iff in Hwrite.
  assert (Hpresent : bool_decide (is_Some (Some seed)) = true)
    by (apply bool_decide_eq_true; eauto).
  unfold Api.import_wallet, try_except, bind, lift, open_w, file_write, emit, bind,
         Api.bad_request, raise.
  cbn [Api.request_json py_in py_getitem].
  rewrite Hseed, Hpresent. cbn [negb read_only files sdk_state trace].
  rewrite Hwrite.
  destruct seed; cbn [write_refusal] in Hrefused;
    try (injection Hrefused as <-; reflexivity).
  rewrite Hrefused. reflexivity.
Qed.

(** C2.  A payload without 'encrypted_seed' makes both the handler and the
    client method raise without touching the disk.  The handler raises its
    422 inside its own [try] block, whose [except] clause turns every
    exception into a 400; so the caller sees status 400, the status of
    every other failure of the handler. *)
Theorem api_import_missing_seed_status cdp_client fields w :
  dict_get fields "encrypted_seed" = None ->
  Api.import_wallet cdp_client {| Api.request_json := Return (JObj fields) |} w =
    (Raise (HTTPException 400 "422: Missing 'encrypted_seed' field in payload"), w) /\
  Client.import_wallet cdp_client fields w =
    (Raise (Exception "Failed to import wallet: Missing 'encrypted_seed' in payload."), w) /\
  (forall request w0 e,
     fst (Api.import_wallet cdp_client request w0) = Raise e ->
     exists detail, e = HTTPException 400 detail).
Proof.
  intros Hmissing. split; [|split].
  - unfold Api.import_wallet, try_except, bind, lift.
    cbn [Api.request_json py_in]. rewrite Hmissing. reflexivity.
  - unfold Client.import_wallet. rewrite Hmissing. reflexivity.
  - intros request w0 e. apply api_import_raises_400.
Qed.

(** C3.  On a seed that loads, the handler returns the wallet object that
    [load_wallet] gave, and never asks the SDK for the export; the client
    method, on the same input, returns the exported snapshot.  (This is for
    a seed that can be written to the file; one that the codec of the file
    refuses never gets as far as being loaded, and the handler answers 400
    with the file left empty.) *)
Theorem api_import_returns_wallet_object name private fields blob w wallet s :
  let self := Client.instance name private in
  let request := {| Api.request_json := Return (JObj fields) |} in
  dict_get fields "encrypted_seed" = Some (JStr blob) ->
  can_write w "my_wallet_seed.json" = true ->
  wallet_load_seed "my_wallet_seed.json" (Some blob) private (sdk_state w)
    = (Return (Some wallet), s) ->
  (text_codec_error blob = None ->
   Api.import_wallet self request w =
     (Return (VWallet wallet), loaded self (seed_written self w blob) s) /\
   List.filter is_export (trace (snd (Api.import_wallet self request w)))
     = List.filter is_export (trace w) /\
   (forall snapshot s',
      wallet_export_data wallet s = (Return snapshot, s') ->
      fst (Client.import_wallet self fields w) = Return snapshot)) /\
  (forall refused,
     text_codec_error blob = Some refused ->
     fst (Api.import_wallet self request w) = Raise (HTTPException 400 (py_str refused)) /\
     files (snd (Api.import_wallet self request w)) !! "my_wallet_seed.json" = Some "").
Proof.
  intros self request Hseed Hwrite Hsdk. split.
  - intros Hcodec.
    assert (Hblob : files (seed_written self w blob) !! Client.seed_storage_path self
                    = Some blob) by apply lookup_insert_eq.
    pose proof (load_wallet_present self _ _ Hblob) as Hload.
    change (wallet_load_seed _ _ _ _)
      with (wallet_load_seed "my_wallet_seed.json" (Some blob) private (sdk_state w))
      in Hload.
    rewrite Hsdk in Hload.
    assert (Hrun : Api.import_wallet self request w =
                   (Return (VWallet wallet), loaded self (seed_written self w blob) s))
      by (pose proof (api_import_run name private fields blob w Hseed Hcodec Hwrite) as Hapi;
          cbn zeta in Hapi; fold self in Hapi; subst request;
          rewrite Hapi, Hload; reflexivity).
    split; [exact Hrun|]. split.
    + rewrite Hrun. cbn [snd loaded trace seed_written].
      rewrite <- app_assoc, List.filter_app. cbn. apply app_nil_r.
    + intros snapshot s' Hexport.
      rewrite (import_wallet_run self fields blob w Hseed Hcodec Hwrite). cbn zeta.
      rewrite Hload. cbn [sdk_state loaded]. rewrite Hexport. reflexivity.
  - intros refused Hcodec. subst request.
    rewrite (api_import_refused self fields (JStr blob) refused w Hseed Hcodec Hwrite).
    split; [reflexivity | apply lookup_insert_eq].
Qed.

End ApiImport.

(** ** The seed store *)

Section SeedStore.
Context {P : Type} `{!CdpSdk P} `{!TextCodec}.
Implicit Types (w : World P).



End SeedStore.

(** * The properties on a running provider *)

(** C1 on the demo provider: configured, not configured, and on a client
    that was given [_get_headers] only. *)
Lemma gasless_raises_before_request_witness :
  fst (Client.execute_gasless_transaction Demo.client "wallet-1" "0xB0B" "5" None
                                          Demo.seeded_world)
    = Raise (AttributeError "'CDPAgentkitClient' object has no attribute '_get_headers'") /\
  fst (Client.execute_gasless_transaction Demo.client "wallet-1" "0xB0B" "5" None
                                          Demo.unconfigured_world)
    = Raise (PyException "ValueError" "Cdp is not configured") /\
  List.filter is_request
    (trace (snd (Client.execute_gasless_transaction Demo.client_with_headers
                   "wallet-1" "0xB0B" "5" None Demo.seeded_world))) = [].
Proof.
  destruct (gasless_raises_before_request "key-id" "key-secret" "wallet-1" "0xB0B" "5"
              None Demo.seeded_world) as (_ & _ & _ & _ & Hreturns & _ & Hother).
  destruct (gasless_raises_before_request "key-id" "key-secret" "wallet-1" "0xB0B" "5"
              None Demo.unconfigured_world) as (_ & _ & _ & _ & _ & Hraises & _).
  split; [|split].
  - apply (Hreturns "https://api.cdp.coinbase.com" Demo.fresh). reflexivity.
  - apply (Hraises (PyException "ValueError" "Cdp is not configured") Demo.unconfigured).
    reflexivity.
  - apply (Hother Demo.client_with_headers). vm_compute. reflexivity.
Defined.

(** C2 on the empty payload, next to an import that fails at decryption. *)
Lemma api_import_missing_seed_status_witness :
  Api.import_wallet Demo.client {| Api.request_json := Return (JObj []) |} Demo.seeded_world
    = (Raise (HTTPException 400 "422: Missing 'encrypted_seed' field in payload"),
       Demo.seeded_world) /\
  exists detail,
    fst (Api.import_wallet Demo.client
           {| Api.request_json := Return (JObj [("encrypted_seed", JStr "corrupt-blob")]) |}
           Demo.seeded_world)
    = Raise (HTTPException 400 detail).
Proof.
  destruct (api_import_missing_seed_status Demo.client [] Demo.seeded_world)
    as (Hmissing & _ & Hall); [reflexivity|].
  split; [exact Hmissing|].
  destruct (Hall {| Api.request_json := Return (JObj [("encrypted_seed", JStr "corrupt-blob")]) |}
                 Demo.seeded_world
                 (HTTPException 400 "Failed to load wallet: Seed could not be decrypted"))
    as [detail Hdetail]; [vm_compute; reflexivity|].
  exists "Failed to load wallet: Seed could not be decrypted". vm_compute. reflexivity.
Defined.

(** C3 on the seed of the demo wallet. *)
Lemma api_import_returns_wallet_object_witness :
  fst (Api.import_wallet Demo.client
         {| Api.request_json :=
              Return (JObj [("encrypted_seed", JStr "enc:wallet-1@base-sepolia")]) |}
         Demo.empty_world)
    = Return (VWallet (Demo.the_wallet "base-sepolia")) /\
  fst (Client.import_wallet Demo.client
         [("encrypted_seed", JStr "enc:wallet-1@base-sepolia")] Demo.empty_world)
    = Return (Demo.snapshot (Demo.the_wallet "base-sepolia")) /\
  (fst (Api.import_wallet Merging.client
          {| Api.request_json :=
               Return (JObj [("encrypted_seed", JStr Codec.lone_surrogate)]) |}
          Merging.empty_world)
     = Raise (HTTPException 400 (py_str Codec.surrogate_refused)) /\
   files (snd (Api.import_wallet Merging.client
                 {| Api.request_json :=
                      Return (JObj [("encrypted_seed", JStr Codec.lone_surrogate)]) |}
                 Merging.empty_world))
     !! "my_wallet_seed.json" = Some "").
Proof.
  destruct (api_import_returns_wallet_object "key-id" "key-secret"
              [("encrypted_seed", JStr "enc:wallet-1@base-sepolia")]
              "enc:wallet-1@base-sepolia" Demo.empty_world
              (Demo.the_wallet "base-sepolia") Demo.fresh)
    as [Hwritten _]; [reflexivity | reflexivity | reflexivity |].
  destruct Hwritten as (Hapi & _ & Hclient); [reflexivity|].
  destruct (api_import_returns_wallet_object "key-id" "key-secret"
              [("encrypted_seed", JStr Codec.lone_surrogate)]
              Codec.lone_surrogate Merging.empty_world
              (Wallet.mk "wallet-0" "base-sepolia") {| Merging.made := 0 |})
    as [_ Hrefused]; [reflexivity | reflexivity | reflexivity |].
  split; [|split].
  - change Demo.client with (Client.instance "key-id" "key-secret").
    rewrite Hapi. reflexivity.
  - apply (Hclient (Demo.snapshot (Demo.the_wallet "base-sepolia")) Demo.fresh).
    reflexivity.
  - apply (Hrefused Codec.surrogate_refused). reflexivity.
Defined.

(** C4 as the claim has it fails: with a provider that makes the wallet and
    the address and then cannot save the seed, [create_wallet] raises and
    returns no session. *)
Lemma create_wallet_persist_failure_counterexample :
  Demo.wallets_made
    (sdk_state (snd (Client.create_wallet Demo.client "base-sepolia" Demo.full_world)))
    = 1%nat /\
  Demo.addresses_made
    (sdk_state (snd (Client.create_wallet Demo.client "base-sepolia" Demo.full_world)))
    = 1%nat /\
  fst (Client.create_wallet Demo.client "base-sepolia" Demo.full_world)
    = Raise (Exception
               "Failed to create wallet and address: [Errno 28] No space left on device") /\
  ~ exists wallet_data,
      fst (Client.create_wallet Demo.client "base-sepolia" Demo.full_world)
      = Return wallet_data.
Proof.
  split; [vm_compute; reflexivity|]. split; [vm_compute; reflexivity|].
  split; [vm_compute; reflexivity|].
  intros [wallet_data Hreturned]. vm_compute in Hreturned. discriminate.
Qed.

(** C4, as the code has it, on the machine with the full disk. *)
Lemma create_wallet_persist_failure_witness :
  fst (Client.create_wallet Demo.client "base-sepolia" Demo.full_world)
    = Raise (Exception
               "Failed to create wallet and address: [Errno 28] No space left on device") /\
  trace (snd (Client.create_wallet Demo.client "base-sepolia" Demo.full_world))
    = [SdkWalletCreate "base-sepolia"; SdkCreateAddress "wallet-1";
       SdkSaveSeed "wallet-1" "my_wallet_seed.json" true] /\
  files (snd (Client.create_wallet Demo.client "base-sepolia" Demo.full_world))
    !! "my_wallet_seed.json" = None.
Proof.
  destruct (create_wallet_persist_failure Demo.client "base-sepolia" Demo.full_world
              (Demo.the_wallet "base-sepolia") {| address_id := "0xA0" |}
              (PyException "OSError" "[Errno 28] No space left on device") None
              {| Demo.configured := true; Demo.disk_full := true;
                 Demo.wallets_made := 1; Demo.addresses_made := 0 |}
              {| Demo.configured := true; Demo.disk_full := true;
                 Demo.wallets_made := 1; Demo.addresses_made := 1 |}
              {| Demo.configured := true; Demo.disk_full := true;
                 Demo.wallets_made := 1; Demo.addresses_made := 1 |})
    as (Hrun & _ & _); [reflexivity | reflexivity | reflexivity |].
  rewrite Hrun. repeat split.
Defined.

(** C5 on the machines without a seed file, with a corrupt one and with a
    good one. *)
Lemma load_wallet_outcomes_witness :
  fst (Client.load_wallet Demo.client Demo.empty_world)
    = Raise (Exception "Failed to load wallet: Wallet seed file not found.") /\
  fst (Client.load_wallet Demo.client Demo.corrupt_world)
    = Raise (Exception "Failed to load wallet: Seed could not be decrypted") /\
  fst (Client.load_wallet Demo.client Demo.seeded_world)
    = Return (Some (Demo.the_wallet "base-sepolia")) /\
  run_op Demo.client OpRetrieveBalances Demo.empty_world
    = (Raise (Exception
                "Failed to retrieve balances: Failed to load wallet: Wallet seed file not found."),
       mkWorld ∅ ∅ Demo.fresh [OsPathExists "my_wallet_seed.json"]).
Proof.
  destruct (load_wallet_outcomes Demo.client Demo.empty_world) as (Habsent & _ & _ & Hop).
  destruct (load_wallet_outcomes Demo.client Demo.corrupt_world) as (_ & Hcorrupt & _ & _).
  destruct (load_wallet_outcomes Demo.client Demo.seeded_world) as (_ & _ & Hgood & _).
  split; [|split; [|split]].
  - rewrite Habsent; reflexivity.
  - rewrite (Hcorrupt "corrupt-blob"
               (PyException "ValueError" "Seed could not be decrypted") Demo.fresh);
      reflexivity.
  - rewrite (Hgood "enc:wallet-1@base-sepolia" (Demo.the_wallet "base-sepolia") Demo.fresh);
      reflexivity.
  - rewrite (Hop OpRetrieveBalances); reflexivity.
Defined.



(** C7 as the claim has it fails for [execute_gasless_transaction]: on a
    machine that holds a seed file the method never checks for it nor loads
    it, on the client as built and on one given [_get_headers] and
    [timeout]; the latter completes the transfer on a machine with no seed
    file at all. *)
Lemma gasless_rehydrates_counterexample :
  trace (snd (Client.execute_gasless_transaction Demo.client "wallet-1" "0xB0B" "5" None
                                                 Demo.seeded_world))
    = [SdkGetApiBase] /\
  (~ exists rest,
       trace (snd (Client.execute_gasless_transaction Demo.client "wallet-1" "0xB0B" "5"
                                                      None Demo.seeded_world))
       = trace Demo.seeded_world ++ OsPathExists "my_wallet_seed.json" :: rest) /\
  fst (Client.execute_gasless_transaction Demo.patched_client "wallet-1" "0xB0B" "5" None
                                          Demo.empty_world)
    = Return (JObj [("status", JStr "complete")]) /\
  List.filter is_load_event
    (trace (snd (Client.execute_gasless_transaction Demo.patched_client "wallet-1" "0xB0B"
                                                    "5" None Demo.empty_world))) = [].
Proof.
  split; [vm_compute; reflexivity|]. split; [|split; vm_compute; reflexivity].
  intros [rest Hrest]. vm_compute in Hrest. discriminate.
Qed.

(** C7, as the code has it, on an export with no seed file and on two
    operations in a row. *)
Lemma session_ops_rehydrate_witness :
  fst (run_op Demo.client OpExportWallet Demo.empty_world)
    = Raise (Exception
               "Failed to export wallet: Failed to load wallet: Wallet seed file not found.") /\
  exists rest,
    trace (snd (run_op Demo.client OpCreateAddress
                  (snd (run_op Demo.client OpExportWallet Demo.seeded_world))))
    = trace (snd (run_op Demo.client OpExportWallet Demo.seeded_world))
      ++ OsPathExists "my_wallet_seed.json" :: rest.
Proof.
  destruct (session_ops_rehydrate Demo.client OpExportWallet Demo.empty_world)
    as (_ & _ & Hfails & _).
  destruct (session_ops_rehydrate Demo.client OpExportWallet Demo.seeded_world)
    as (_ & _ & _ & Hagain & _).
  split.
  - apply (Hfails (Exception "Failed to load wallet: Wallet seed file not found.")).
    reflexivity.
  - apply (Hagain OpCreateAddress).
Defined.

(** C8 on the demo provider. *)
Lemma create_wallet_success_witness :
  Client.create_wallet Demo.client "base-sepolia" Demo.empty_world =
    (Return (JObj [("wallet_id", JStr "wallet-1");
                   ("network_id", JStr "base-sepolia");
                   ("address",
                    JObj [("address_id", JStr "0xA0");
                          ("wallet_id", JStr "wallet-1");
                          ("network_id", JStr "base-sepolia")])]),
     created Demo.client Demo.empty_world "base-sepolia" (Demo.the_wallet "base-sepolia")
             (Some "enc:wallet-1@base-sepolia")
             {| Demo.configured := true; Demo.disk_full := false;
                Demo.wallets_made := 1; Demo.addresses_made := 1 |}) /\
  files (snd (Client.create_wallet Demo.client "base-sepolia" Demo.empty_world))
    !! "my_wallet_seed.json" = Some "enc:wallet-1@base-sepolia" /\
  exists wallet address,
    trace (snd (Client.create_wallet Demo.client "base-sepolia" Demo.empty_world))
      = [SdkWalletCreate "base-sepolia"; SdkCreateAddress (Wallet.id wallet);
         SdkSaveSeed (Wallet.id wallet) "my_wallet_seed.json" true] /\
    fst (Client.create_wallet Demo.client "base-sepolia" Demo.empty_world)
      = Return (Client.wallet_data_of wallet (Client.address_data_of address wallet)).
Proof.
  destruct (create_wallet_success Demo.client "base-sepolia" Demo.empty_world)
    as (Hshape & Hreturns & Hsaved).
  assert (Hrun := Hreturns (Demo.the_wallet "base-sepolia") {| address_id := "0xA0" |}
                    (Some "enc:wallet-1@base-sepolia")
                    {| Demo.configured := true; Demo.disk_full := false;
                       Demo.wallets_made := 1; Demo.addresses_made := 0 |}
                    {| Demo.configured := true; Demo.disk_full := false;
                       Demo.wallets_made := 1; Demo.addresses_made := 1 |}
                    {| Demo.configured := true; Demo.disk_full := false;
                       Demo.wallets_made := 1; Demo.addresses_made := 1 |}
                    eq_refl eq_refl eq_refl).
  split; [exact Hrun|].
  split.
  - apply (Hsaved (Demo.the_wallet "base-sepolia") {| address_id := "0xA0" |}
                  "enc:wallet-1@base-sepolia"
                  {| Demo.configured := true; Demo.disk_full := false;
                     Demo.wallets_made := 1; Demo.addresses_made := 0 |}
                  {| Demo.configured := true; Demo.disk_full := false;
                     Demo.wallets_made := 1; Demo.addresses_made := 1 |}
                  {| Demo.configured := true; Demo.disk_full := false;
                     Demo.wallets_made := 1; Demo.addresses_made := 1 |});
      reflexivity.
  - destruct (Hshape _ _ Hrun)
      as (wallet & address & written & s1 & s2 & s3 & _ & _ & _ & Htrace & _ & _ & Hdata).
    exists wallet, address. rewrite Hrun. cbn [fst snd].
    split; [exact Htrace | f_equal; exact Hdata].
Defined.

(** C10 on a client given [_get_headers] and [timeout], with the asset
    left out. *)
Lemma gasless_transfer_request_witness :
  trace (snd (Client.execute_gasless_transaction Demo.patched_client "wallet-9" "0xB0B" "5"
                                                 None Demo.seeded_world))
    = [SdkGetApiBase;
       SdkRequest "POST" "/v2/transfers"
                  "wallet_id=wallet-9&to=0xB0B&amount=5&asset=USDC&transfer_type=GASLESS"
                  [("Content-Type", "application/json")] (ANum 30)] /\
  default (JStr "USDC") None = JStr "USDC".
Proof.
  destruct (gasless_transfer_request Demo.patched_client "wallet-9" "0xB0B" "5" None
              Demo.seeded_world) as (_ & Hdefault & _ & _ & Hsent & _).
  split; [|apply Hdefault; reflexivity].
  apply (Hsent Demo.json_headers [("Content-Type", "application/json")] (ANum 30)
               "https://api.cdp.coinbase.com" Demo.fresh); reflexivity.
Defined.

(** * Further properties of the client *)

Section ClientErrors.
Context {P : Type} `{!CdpSdk P} `{!TextCodec}.
Implicit Types (self : Client.CDPAgentkitClient) (w : World P) (op : SessionOp).

(** What leaves a [try] block whose [except] clause re-raises under a
    prefix is an [Exception] with that prefix. *)
Lemma try_except_prefix {A} (body : M P A) (prefix : string) w e :
  fst (try_except body (fun e => raise (Exception (prefix +:+ py_str e))) w) = Raise e ->
  exists cause, e = Exception (prefix +:+ cause).
Proof.
  unfold try_except, raise. destruct (body w) as [[a|e'] w']; cbn [fst].
  - discriminate.
  - intros [= <-]. eexists; reflexivity.
Qed.

(** X1. When the provider refuses to make the wallet, [create_wallet]
    raises under its prefix after that one call: no address is asked for
    and no seed is saved.  When the wallet is made and the address is
    refused, it raises after those two calls, and again no seed is saved;
    in both cases the seed file is as it was. *)
Theorem create_wallet_provider_failure name private network_id w :
  let self := Client.instance name private in
  let path := "my_wallet_seed.json" in
  let failed e := Exception ("Failed to create wallet and address: " +:+ py_str e) in
  let run := Client.create_wallet self network_id w in
  (forall e s1,
     wallet_create network_id (sdk_state w) = (Raise e, s1) ->
     fst run = Raise (failed e) /\
     trace (snd run) = trace w ++ [SdkWalletCreate network_id] /\
     sdk_state (snd run) = s1 /\
     files (snd run) !! path = files w !! path) /\
  (forall wallet e s1 s2,
     wallet_create network_id (sdk_state w) = (Return wallet, s1) ->
     wallet_create_address wallet s1 = (Raise e, s2) ->
     fst run = Raise (failed e) /\
     trace (snd run) = trace w ++ [SdkWalletCreate network_id;
                                   SdkCreateAddress (Wallet.id wallet)] /\
     sdk_state (snd run) = s2 /\
     files (snd run) !! path = files w !! path).
Proof.
  intros self path failed run. subst run. split.
  - intros e s1 Hcreate. rewrite create_wallet_run. cbn zeta.
    rewrite Hcreate. repeat split.
  - intros wallet e s1 s2 Hcreate Haddress. rewrite create_wallet_run. cbn zeta.
    rewrite Hcreate, Haddress. repeat split.
Qed.

(** X2. No exception of the SDK, of the file system or of Python leaves
    [create_wallet], [import_wallet], [load_wallet], [create_address],
    [export_wallet], [retrieve_balances] or [create_webhook] as it is:
    whatever one of them raises is a plain [Exception] whose message starts
    with that method's own prefix. *)
Theorem client_errors_are_wrapped self w e :
  (forall network_id,
     fst (Client.create_wallet self network_id w) = Raise e ->
     exists cause, e = Exception ("Failed to create wallet and address: " +:+ cause)) /\
  (forall import_data,
     fst (Client.import_wallet self import_data w) = Raise e ->
     exists cause, e = Exception ("Failed to import wallet: " +:+ cause)) /\
  (fst (Client.load_wallet self w) = Raise e ->
   exists cause, e = Exception ("Failed to load wallet: " +:+ cause)) /\
  (forall op,
     fst (run_op self op w) = Raise e ->
     exists cause, e = Exception (op_prefix op +:+ cause)).
Proof.
  split; [|split; [|split]].
  - intros network_id. apply try_except_prefix.
  - intros import_data. apply try_except_prefix.
  - apply try_except_prefix.
  - intros [| | |callback_url]; apply try_except_prefix.
Qed.

(** X3. [load_wallet] never hands back [None]: it returns a wallet or it
    raises.  When [Wallet.load_seed] itself gives [None], reading
    [wallet.id] fails and [load_wallet] raises with that cause; so does
    every operation on the stored wallet, whose own "No wallet found"
    branch is thus never the one taken. *)
Theorem load_wallet_never_none self w :
  let path := Client.seed_storage_path self in
  let passphrase := Client.api_key_private self in
  let no_id := "Failed to load wallet: 'NoneType' object has no attribute 'id'" in
  (forall w', Client.load_wallet self w <> (Return None, w')) /\
  (forall blob s,
     files w !! path = Some blob ->
     wallet_load_seed path (Some blob) passphrase (sdk_state w) = (Return None, s) ->
     Client.load_wallet self w = (Raise (Exception no_id), loaded self w s) /\
     forall op,
       run_op self op w = (Raise (Exception (op_prefix op +:+ no_id)), loaded self w s)).
Proof.
  intros path passphrase no_id. split.
  - intros w'. apply load_wallet_not_none.
  - intros blob s Hfile Hsdk.
    assert (Hload : Client.load_wallet self w = (Raise (Exception no_id), loaded self w s)).
    { rewrite (load_wallet_present _ _ _ Hfile). fold path passphrase.
      rewrite Hsdk. reflexivity. }
    split; [exact Hload|].
    intros op. rewrite (run_op_load_fails self op w _ _ Hload). reflexivity.
Qed.

(** A seed that is not a string is refused by [write], which names its
    type. *)
Lemma write_refusal_non_string (seed : Json) :
  (forall s, seed <> JStr s) ->
  write_refusal seed =
    Some (TypeError ("write() argument must be str, not " +:+ write_arg_name seed)).
Proof.
  intros Hnot_str. destruct seed; try reflexivity.
  exfalso. eapply Hnot_str. reflexivity.
Qed.

(** X4. An import whose 'encrypted_seed' is not a string empties the seed
    file: the file is opened for writing, which truncates it, the write is
    refused, and the method raises under its prefix without loading
    anything.  The seed that was stored before is gone. *)
Theorem import_non_string_seed_empties_file name private import_data seed w :
  let self := Client.instance name private in
  let path := "my_wallet_seed.json" in
  let run := Client.import_wallet self import_data w in
  dict_get import_data "encrypted_seed" = Some seed ->
  (forall s, seed <> JStr s) ->
  can_write w path = true ->
  fst run = Raise (Exception ("Failed to import wallet: write() argument must be str, not "
                              +:+ write_arg_name seed)) /\
  files (snd run) !! path = Some "" /\
  trace (snd run) = trace w ++ [OpenForWrite path] /\
  sdk_state (snd run) = sdk_state w.
Proof.
  intros self path run Hseed Hnot_str Hwrite. subst run.
  rewrite (import_wallet_refused self import_data seed _ w Hseed
             (write_refusal_non_string seed Hnot_str) Hwrite).
  repeat split. apply lookup_insert_eq.
Qed.

(** X5. When the seed file cannot be opened for writing, [import_wallet]
    raises under its prefix with the cause of [open]; the seed file is as
    it was, nothing is handed to [write], and the wallet is not loaded. *)
Theorem import_read_only_seed_file name private import_data seed w :
  let self := Client.instance name private in
  let path := "my_wallet_seed.json" in
  let run := Client.import_wallet self import_data w in
  dict_get import_data "encrypted_seed" = Some seed ->
  can_write w path = false ->
  fst run = Raise (Exception ("Failed to import wallet: [Errno 13] Permission denied: '"
                              +:+ path +:+ "'")) /\
  files (snd run) !! path = files w !! path /\
  trace (snd run) = trace w ++ [OpenForWrite path] /\
  sdk_state (snd run) = sdk_state w.
Proof.
  intros self path run Hseed Hwrite. subst run.
  unfold can_write in Hwrite. apply negb_false_iff in Hwrite.
  unfold Client.import_wallet. rewrite Hseed.
  unfold try_except, bind, open_w, emit, bind, raise.
  cbn [read_only files sdk_state trace Client.seed_storage_path self Client.instance].
  fold path. rewrite Hwrite. repeat split.
Qed.

(** X6. None of the operations on the stored wallet writes to the seed
    file: each leaves it as it found it, whatever its outcome, and adds to
    the trace no [open] for writing, no [write] and no [save_seed]. *)
Theorem session_ops_never_write name private op w :
  let self := Client.instance name private in
  let path := "my_wallet_seed.json" in
  files (snd (run_op self op w)) !! path = files w !! path /\
  exists added,
    trace (snd (run_op self op w)) = trace w ++ added /\
    List.filter is_file_write added = [].
Proof.
  intros self path.
  destruct (run_op_files self op w) as [Hfiles _].
  split; [rewrite Hfiles; reflexivity|].
  destruct op; unfold_ops; unfold try_except, bind;
    (destruct (files w !! Client.seed_storage_path self) as [blob|] eqn:Hfile;
     [ rewrite (load_wallet_present _ _ _ Hfile);
       destruct (wallet_load_seed _ _ _ _) as [[[wallet|]|e] s]; cbn [fst snd];
       [ unfold sdk_call, ret; cbn [sdk_state loaded trace];
         first [ destruct (wallet_create_address _ _) as [[?|?] ?]
               | destruct (wallet_export_data _ _) as [[?|?] ?]
               | destruct (wallet_balances _ _) as [[?|?] ?]
               | destruct (wallet_create_webhook _ _ _ _) as [[?|?] ?] ];
         cbn [fst snd trace]; rewrite <- app_assoc
       | | ]
     | rewrite (load_wallet_absent _ _ Hfile); cbn [fst snd] ]);
    eexists; split; reflexivity.
Qed.

End ClientErrors.

(** ** What the operations on the stored wallet hand back *)

Section SessionResults.
Context {P : Type} `{!CdpSdk P}.
Implicit Types (self : Client.CDPAgentkitClient) (w : World P).

(** An operation on a wallet that loads: the provider call [call], made in
    the state [load_seed] left, decides the outcome. *)
Lemma loaded_op_run {A} self w blob wallet s (failed : string)
      (ev : Wallet.t -> Event) (call : Wallet.t -> P -> Outcome A * P)
      (render : Wallet.t -> A -> Json) (no_wallet : string) :
  files w !! Client.seed_storage_path self = Some blob ->
  wallet_load_seed (Client.seed_storage_path self) (Some blob)
                   (Client.api_key_private self) (sdk_state w)
    = (Return (Some wallet), s) ->
  try_except
    (do loaded_wallet <- Client.load_wallet self;
     match loaded_wallet with
     | None => raise (Exception no_wallet)
     | Some wl => do result <- sdk_call (ev wl) (call wl); ret (render wl result)
     end)
    (fun e => raise (Exception (failed +:+ py_str e))) w
  = (match fst (call wallet s) with
     | Return result => Return (render wallet result)
     | Raise e => Raise (Exception (failed +:+ py_str e))
     end,
     mkWorld (files w) (read_only w) (snd (call wallet s))
             (trace w ++ [OsPathExists (Client.seed_storage_path self);
                          SdkLoadSeed (Client.seed_storage_path self)
                                      (Client.api_key_private self);
                          ev wallet])).
Proof.
  intros Hfile Hsdk. unfold try_except, bind.
  rewrite (load_wallet_present _ _ _ Hfile), Hsdk.
  unfold sdk_call, ret, raise. cbn [sdk_state loaded files read_only trace].
  destruct (call wallet s) as [[result|e] s']; cbn [fst snd];
    rewrite <- app_assoc; reflexivity.
Qed.

Lemma create_address_run self w blob wallet address s s' :
  files w !! Client.seed_storage_path self = Some blob ->
  wallet_load_seed (Client.seed_storage_path self) (Some blob)
                   (Client.api_key_private self) (sdk_state w)
    = (Return (Some wallet), s) ->
  wallet_create_address wallet s = (Return address, s') ->
  Client.create_address self w =
    (Return (Client.address_data_of address wallet),
     mkWorld (files w) (read_only w) s'
             (trace w ++ [OsPathExists (Client.seed_storage_path self);
                          SdkLoadSeed (Client.seed_storage_path self)
                                      (Client.api_key_private self);
                          SdkCreateAddress (Wallet.id wallet)])).
Proof.
  intros Hfile Hsdk Haddress. unfold Client.create_address.
  rewrite (loaded_op_run self w blob wallet s "Failed to create new address: "
             (fun wl => SdkCreateAddress (Wallet.id wl)) wallet_create_address
             (fun wl new_address => Client.address_data_of new_address wl)
             _ Hfile Hsdk).
  rewrite Haddress. reflexivity.
Qed.

(** X7. On a seed that loads, [create_address] asks the provider for one
    address of the loaded wallet and returns
    {address_id, wallet_id, network_id}, the last two taken from the loaded
    wallet; the existence check, the load and that call are all it does. *)
Theorem create_address_result self w blob wallet address s s' :
  let path := Client.seed_storage_path self in
  let passphrase := Client.api_key_private self in
  files w !! path = Some blob ->
  wallet_load_seed path (Some blob) passphrase (sdk_state w) = (Return (Some wallet), s) ->
  wallet_create_address wallet s = (Return address, s') ->
  Client.create_address self w =
    (Return (JObj [("address_id", JStr (address_id address));
                   ("wallet_id", JStr (Wallet.id wallet));
                   ("network_id", JStr (Wallet.network_id wallet))]),
     mkWorld (files w) (read_only w) s'
             (trace w ++ [OsPathExists path; SdkLoadSeed path passphrase;
                          SdkCreateAddress (Wallet.id wallet)])).
Proof.
  intros path passphrase Hfile Hsdk Haddress.
  apply (create_address_run self w blob wallet address s s'); assumption.
Qed.

(** X8. On a seed that loads, [create_webhook] registers the callback URL
    for the id of the loaded wallet, with the one event type
    TRANSACTION_RECEIVED, and returns what the provider answered; when the
    provider refuses, it raises under its prefix. *)
Theorem create_webhook_registration self callback_url w blob wallet s :
  let path := Client.seed_storage_path self in
  let passphrase := Client.api_key_private self in
  let answer := wallet_create_webhook (Wallet.id wallet) callback_url
                                      ["TRANSACTION_RECEIVED"] s in
  files w !! path = Some blob ->
  wallet_load_seed path (Some blob) passphrase (sdk_state w) = (Return (Some wallet), s) ->
  Client.create_webhook self callback_url w =
    (match fst answer with
     | Return webhook => Return webhook
     | Raise e => Raise (Exception ("Failed to create webhook: " +:+ py_str e))
     end,
     mkWorld (files w) (read_only w) (snd answer)
             (trace w ++ [OsPathExists path; SdkLoadSeed path passphrase;
                          SdkCreateWebhook (Wallet.id wallet) callback_url
                                           ["TRANSACTION_RECEIVED"]])).
Proof.
  intros path passphrase answer Hfile Hsdk.
  unfold Client.create_webhook.
  apply (loaded_op_run self w blob wallet s "Failed to create webhook: "
           (fun wl => SdkCreateWebhook (Wallet.id wl) callback_url ["TRANSACTION_RECEIVED"])
           (fun wl => wallet_create_webhook (Wallet.id wl) callback_url
                                            ["TRANSACTION_RECEIVED"])
           (fun _ webhook => webhook)); assumption.
Qed.

(** X9. On a seed that loads, [export_wallet] and [retrieve_balances]
    return what the provider gives for the loaded wallet, unchanged, and
    raise under their own prefix when the provider refuses. *)
Theorem export_and_balances_pass_through self w blob wallet s :
  let path := Client.seed_storage_path self in
  let passphrase := Client.api_key_private self in
  files w !! path = Some blob ->
  wallet_load_seed path (Some blob) passphrase (sdk_state w) = (Return (Some wallet), s) ->
  fst (Client.export_wallet self w) =
    match fst (wallet_export_data wallet s) with
    | Return exported_wallet => Return exported_wallet
    | Raise e => Raise (Exception ("Failed to export wallet: " +:+ py_str e))
    end /\
  fst (Client.retrieve_balances self w) =
    match fst (wallet_balances wallet s) with
    | Return balances => Return balances
    | Raise e => Raise (Exception ("Failed to retrieve balances: " +:+ py_str e))
    end /\
  trace (snd (Client.export_wallet self w)) =
    trace w ++ [OsPathExists path; SdkLoadSeed path passphrase;
                SdkExportData (Wallet.id wallet)] /\
  trace (snd (Client.retrieve_balances self w)) =
    trace w ++ [OsPathExists path; SdkLoadSeed path passphrase;
                SdkBalances (Wallet.id wallet)].
Proof.
  intros path passphrase Hfile Hsdk.
  unfold Client.export_wallet, Client.retrieve_balances.
  rewrite (loaded_op_run self w blob wallet s "Failed to export wallet: "
             (fun wl => SdkExportData (Wallet.id wl)) wallet_export_data
             (fun _ exported_wallet => exported_wallet) _ Hfile Hsdk).
  rewrite (loaded_op_run self w blob wallet s "Failed to retrieve balances: "
             (fun wl => SdkBalances (Wallet.id wl)) wallet_balances
             (fun _ balances => balances) _ Hfile Hsdk).
  repeat split.
Qed.

(** X10. Creating a wallet and then asking for a new address works on the
    same wallet, provided the SDK loads back the seed it saved: the address
    record that [create_address] returns carries the wallet id and network
    id that [create_wallet] returned, and the seed file is the one
    [create_wallet] left. *)
Theorem create_then_create_address self network_id w wallet first second blob
        s1 s2 s3 s4 s5 :
  let path := Client.seed_storage_path self in
  let passphrase := Client.api_key_private self in
  let w1 := snd (Client.create_wallet self network_id w) in
  can_write w path = true ->
  wallet_create network_id (sdk_state w) = (Return wallet, s1) ->
  wallet_create_address wallet s1 = (Return first, s2) ->
  wallet_save_seed wallet path true (files w !! path) true s2 = (Return tt, Some blob, s3) ->
  wallet_load_seed path (Some blob) passphrase s3 = (Return (Some wallet), s4) ->
  wallet_create_address wallet s4 = (Return second, s5) ->
  fst (Client.create_wallet self network_id w) =
    Return (Client.wallet_data_of wallet (Client.address_data_of first wallet)) /\
  fst (Client.create_address self w1) = Return (Client.address_data_of second wallet) /\
  files (snd (Client.create_address self w1)) !! path = Some blob.
Proof.
  intros path passphrase w1 Hwrite Hcreate Hfirst Hsave Hload Hsecond.
  assert (Hrun : Client.create_wallet self network_id w =
                 (Return (Client.wallet_data_of wallet (Client.address_data_of first wallet)),
                  created self w network_id wallet (Some blob) s3)).
  { rewrite create_wallet_run. cbn zeta. fold path.
    rewrite Hcreate, Hfirst, Hwrite, Hsave. reflexivity. }
  subst w1. rewrite Hrun. cbn [fst snd]. split; [reflexivity|].
  assert (Hfile : files (created self w network_id wallet (Some blob) s3) !! path = Some blob).
  { unfold created, after_save. cbn [files]. fold path. rewrite Hwrite.
    apply lookup_insert_eq. }
  rewrite (create_address_run self _ blob wallet second s4 s5 Hfile Hload Hsecond).
  split; [reflexivity | exact Hfile].
Qed.

End SessionResults.

(** * Further properties of the request handlers *)

Section ApiErrors.
Context {P : Type} `{!CdpSdk P} `{!TextCodec}.
Implicit Types (cdp_client : Client.CDPAgentkitClient) (w : World P).

(** A handler that passes on what a client method returns fails exactly
    when the method does, with status 400 and the method's message. *)
Lemma handler_raise {A} (method : M P A) (render : A -> PyVal) w e :
  fst (try_except (do value <- method; ret (render value)) Api.bad_request w) = Raise e ->
  exists cause, fst (method w) = Raise cause /\ e = HTTPException 400 (py_str cause).
Proof.
  unfold try_except, bind, ret, Api.bad_request, raise.
  destruct (method w) as [[value|cause] w']; cbn [fst].
  - discriminate.
  - intros [= <-]. exists cause. split; reflexivity.
Qed.

Lemma handler_raise_prefix {A} (body : M P A) (prefix : string) (render : A -> PyVal) w e :
  fst (try_except
         (do value <- try_except body (fun e => raise (Exception (prefix +:+ py_str e)));
          ret (render value))
         Api.bad_request w) = Raise e ->
  exists cause, e = HTTPException 400 (prefix +:+ cause).
Proof.
  intros Hraise. apply handler_raise in Hraise as (e0 & Hmethod & ->).
  apply try_except_prefix in Hmethod as [cause ->]. exists cause. reflexivity.
Qed.

(** X11. Whatever goes wrong in the handlers of /wallet/create,
    /wallet/export, /wallet/balances, /wallet/address and /wallet/webhook,
    the caller gets an HTTPException with status 400 whose detail starts
    with the prefix of the client method behind the handler: no other
    status and no other exception leaves them. *)
Theorem api_failures_are_400 cdp_client w e :
  (forall network_id,
     fst (Api.create_wallet cdp_client network_id w) = Raise e ->
     exists cause,
       e = HTTPException 400 ("Failed to create wallet and address: " +:+ cause)) /\
  (fst (Api.export_wallet cdp_client w) = Raise e ->
   exists cause, e = HTTPException 400 ("Failed to export wallet: " +:+ cause)) /\
  (fst (Api.retrieve_balances cdp_client w) = Raise e ->
   exists cause, e = HTTPException 400 ("Failed to retrieve balances: " +:+ cause)) /\
  (fst (Api.create_address cdp_client w) = Raise e ->
   exists cause, e = HTTPException 400 ("Failed to create new address: " +:+ cause)) /\
  (forall webhook_request,
     fst (Api.create_webhook cdp_client webhook_request w) = Raise e ->
     exists cause, e = HTTPException 400 ("Failed to create webhook: " +:+ cause)).
Proof.
  repeat split; intros; eapply handler_raise_prefix; eassumption.
Qed.

(** X12. With the client as the API builds it, the handler of
    /transaction/gasless fails on every request it is handed, that is, on
    every body the request model accepts: the caller gets status 400, the
    URL lookup is the only SDK call made, so no transfer is requested, and
    the seed file is neither read nor written.  When the lookup returns,
    the detail is the missing-attribute message for [_get_headers]. *)
Theorem api_gasless_always_fails name private tx_request w :
  let run := Api.execute_gasless_transaction (Client.instance name private) tx_request w in
  (exists detail, fst run = Raise (HTTPException 400 detail)) /\
  trace (snd run) = trace w ++ [SdkGetApiBase] /\
  files (snd run) !! "my_wallet_seed.json" = files w !! "my_wallet_seed.json" /\
  (forall base s,
     cdp_get_api_base (sdk_state w) = (Return base, s) ->
     fst run =
       Raise (HTTPException 400
                "'CDPAgentkitClient' object has no attribute '_get_headers'")).
Proof.
  intros run. subst run.
  unfold Api.execute_gasless_transaction, try_except at 1, bind at 1, Api.bad_request.
  run_gasless.
  rewrite (getattr_instance_missing name private "_get_headers") by reflexivity.
  destruct (cdp_get_api_base (sdk_state w)) as [[base|e] s0]; cbn [fst snd trace files].
  - split; [eexists; reflexivity|]. split; [reflexivity|]. split; [reflexivity|].
    intros base' s' _. reflexivity.
  - split; [eexists; reflexivity|]. split; [reflexivity|]. split; [reflexivity|].
    intros base' s' [=].
Qed.

(** A body that is not a JSON object stops the handler before any call. *)
Lemma api_import_non_object_run cdp_client body w :
  (forall fields, body <> JObj fields) ->
  exists detail,
    Api.import_wallet cdp_client {| Api.request_json := Return body |} w
    = (Raise (HTTPException 400 detail), w).
Proof.
  intros Hnot_object.
  unfold Api.import_wallet, try_except, bind, lift, Api.bad_request, raise.
  cbn [Api.request_json].
  destruct body as [| b | n | r | s | items | fields]; cbn [py_in py_getitem];
    try (eexists; reflexivity).
  - destruct (str_contains "encrypted_seed" s); cbn [negb py_getitem];
      eexists; reflexivity.
  - destruct (existsb (json_is_str "encrypted_seed") items); cbn [negb py_getitem];
      eexists; reflexivity.
  - exfalso. eapply Hnot_object. reflexivity.
Qed.

(** X13. A body of /wallet/import that is not a JSON object, or that does
    not parse, never gets as far as the seed file or the provider: the
    handler answers 400 without having made any file-system or SDK call,
    and the seed file is as it was.  This holds also for a list that has
    "encrypted_seed" among its items and for a string that contains it,
    both of which pass the handler's own check for the field. *)
Theorem api_import_non_object_body cdp_client body w :
  let run := Api.import_wallet cdp_client {| Api.request_json := Return body |} w in
  (forall fields, body <> JObj fields) ->
  ((exists detail, fst run = Raise (HTTPException 400 detail)) /\
   trace (snd run) = trace w /\
   sdk_state (snd run) = sdk_state w /\
   files (snd run) !! "my_wallet_seed.json" = files w !! "my_wallet_seed.json") /\
  (forall e,
     let unparsed := Api.import_wallet cdp_client {| Api.request_json := Raise e |} w in
     fst unparsed = Raise (HTTPException 400 (py_str e)) /\
     trace (snd unparsed) = trace w /\
     sdk_state (snd unparsed) = sdk_state w /\
     files (snd unparsed) !! "my_wallet_seed.json" = files w !! "my_wallet_seed.json").
Proof.
  intros run Hnot_object. subst run. split.
  - destruct (api_import_non_object_run cdp_client body w Hnot_object) as [detail ->].
    split; [eexists; reflexivity|]. repeat split.
  - intros e. repeat split.
Qed.

(** X14. An import through the API whose seed is written and then does not
    load overwrites the seed file all the same: the handler answers 400
    with the cause of [load_wallet], and the file holds the blob that was
    sent.  A seed that the codec of the file refuses empties the seed file
    instead: the handler answers 400 with the codec's error and does not
    try to load. *)
Theorem api_import_failed_load_overwrites name private fields blob w :
  let self := Client.instance name private in
  let path := "my_wallet_seed.json" in
  let run := Api.import_wallet self {| Api.request_json := Return (JObj fields) |} w in
  dict_get fields "encrypted_seed" = Some (JStr blob) ->
  can_write w path = true ->
  (text_codec_error blob = None ->
   forall e s,
     wallet_load_seed path (Some blob) private (sdk_state w) = (Raise e, s) ->
     fst run = Raise (HTTPException 400 ("Failed to load wallet: " +:+ py_str e)) /\
     files (snd run) !! path = Some blob) /\
  (forall refused,
     text_codec_error blob = Some refused ->
     fst run = Raise (HTTPException 400 (py_str refused)) /\
     files (snd run) !! path = Some "" /\
     trace (snd run) = trace w ++ [OpenForWrite path]).
Proof.
  intros self path run Hseed Hwrite. subst run. split.
  - intros Hcodec e s Hsdk.
    pose proof (api_import_run name private fields blob w Hseed Hcodec Hwrite) as Hrun.
    cbn zeta in Hrun. fold self in Hrun. rewrite Hrun.
    assert (Hblob : files (seed_written self w blob) !! Client.seed_storage_path self
                    = Some blob) by apply lookup_insert_eq.
    rewrite (load_wallet_present self _ _ Hblob).
    change (wallet_load_seed _ _ _ _)
      with (wallet_load_seed path (Some blob) private (sdk_state w)).
    rewrite Hsdk. split; [reflexivity | apply lookup_insert_eq].
  - intros refused Hcodec.
    rewrite (api_import_refused self fields (JStr blob) refused w Hseed Hcodec Hwrite).
    repeat split. apply lookup_insert_eq.
Qed.

(** X15. An import through the API whose 'encrypted_seed' is not a string
    empties the seed file: the handler opens it for writing, the write is
    refused, and the caller gets a 400 that names the type of the value
    ([None] for a null). *)
Theorem api_import_non_string_seed_empties_file cdp_client fields seed w :
  let path := "my_wallet_seed.json" in
  let run := Api.import_wallet cdp_client {| Api.request_json := Return (JObj fields) |} w in
  dict_get fields "encrypted_seed" = Some seed ->
  (forall s, seed <> JStr s) ->
  can_write w path = true ->
  fst run = Raise (HTTPException 400 ("write() argument must be str, not "
                                      +:+ write_arg_name seed)) /\
  files (snd run) !! path = Some "" /\
  trace (snd run) = trace w ++ [OpenForWrite path] /\
  sdk_state (snd run) = sdk_state w.
Proof.
  intros path run Hseed Hnot_str Hwrite. subst run.
  rewrite (api_import_refused cdp_client fields seed _ w Hseed
             (write_refusal_non_string seed Hnot_str) Hwrite).
  repeat split. apply lookup_insert_eq.
Qed.

End ApiErrors.

(** * Configuration and start-up *)

Lemma config_load_error (environ : gmap string string) e :
  Config.load environ = Raise e -> e = Config.missing_keys.
Proof.
  unfold Config.load.
  destruct (environ !! "API_KEY_NAME") as [name|];
    destruct (environ !! "API_KEY_PRIVATE") as [private|]; try congruence.
  destruct (String.eqb name "" || String.eqb private ""); [congruence | discriminate].
Qed.

(** X16. Importing the configuration fails, with the one ValueError of the
    module, exactly when API_KEY_NAME or API_KEY_PRIVATE is not set or is
    empty.  When it succeeds the two keys are the values of the
    environment, both non-empty, and BASE_URL is the value of the
    environment when it is set, even to the empty string, and
    https://api.cdp.coinbase.com when it is not. *)
Theorem config_requires_both_keys (environ : gmap string string) :
  (is_raise (Config.load environ) = true <->
   environ !! "API_KEY_NAME" = None \/ environ !! "API_KEY_NAME" = Some "" \/
   environ !! "API_KEY_PRIVATE" = None \/ environ !! "API_KEY_PRIVATE" = Some "") /\
  (forall e, Config.load environ = Raise e -> e = Config.missing_keys) /\
  (forall config,
     Config.load environ = Return config ->
     environ !! "API_KEY_NAME" = Some (Config.API_KEY_NAME config) /\
     environ !! "API_KEY_PRIVATE" = Some (Config.API_KEY_PRIVATE config) /\
     Config.API_KEY_NAME config <> "" /\
     Config.API_KEY_PRIVATE config <> "" /\
     (environ !! "BASE_URL" = None ->
      Config.BASE_URL config = "https://api.cdp.coinbase.com") /\
     (forall url, environ !! "BASE_URL" = Some url -> Config.BASE_URL config = url)).
Proof.
  unfold Config.load.
  destruct (environ !! "API_KEY_NAME") as [name|];
    destruct (environ !! "API_KEY_PRIVATE") as [private|]; cbn.
  - destruct (String.eqb_spec name "") as [->|Hname];
      [|destruct (String.eqb_spec private "") as [->|Hprivate]]; cbn.
    + split; [split; [auto | reflexivity]|]. split; [congruence | discriminate].
    + split; [split; [auto | reflexivity]|]. split; [congruence | discriminate].
    + split; [split; [discriminate | intros [|[|[|]]]; congruence]|].
      split; [discriminate|].
      intros config [= <-]. cbn. repeat split; try assumption.
      * intros ->. reflexivity.
      * intros url ->. reflexivity.
  - split; [split; [auto | reflexivity]|]. split; [congruence | discriminate].
  - split; [split; [auto | reflexivity]|]. split; [congruence | discriminate].
  - split; [split; [auto | reflexivity]|]. split; [congruence | discriminate].
Qed.

Section Startup.
Context {P : Type} `{!CdpSdk P}.
Implicit Types (w : World P).

(** X17. Start-up stops at the configuration when a key is missing: the
    ValueError escapes and the SDK is never configured.  Otherwise the SDK
    is configured, once, with the two keys of the environment, the seed
    file is neither read nor written, and the client that is built holds
    API_KEY_PRIVATE as the passphrase of its seed file,
    my_wallet_seed.json. *)
Theorem startup_configures_or_stops (environ : gmap string string) w :
  (is_raise (Config.load environ) = true ->
   fst (startup environ w) = Raise Config.missing_keys /\
   trace (snd (startup environ w)) = trace w /\
   sdk_state (snd (startup environ w)) = sdk_state w) /\
  (forall config,
     Config.load environ = Return config ->
     trace (snd (startup environ w)) =
       trace w ++ [SdkConfigure (Config.API_KEY_NAME config) (Config.API_KEY_PRIVATE config)] /\
     files (snd (startup environ w)) !! "my_wallet_seed.json"
       = files w !! "my_wallet_seed.json" /\
     forall self w',
       startup environ w = (Return self, w') ->
       Client.api_key_private self = Config.API_KEY_PRIVATE config /\
       Client.api_key_name self = Config.API_KEY_NAME config /\
       Client.seed_storage_path self = "my_wallet_seed.json" /\
       Client.extra_attrs self = ∅).
Proof.
  split.
  - unfold startup, bind, lift.
    destruct (Config.load environ) as [config|e] eqn:Hload; [discriminate|].
    intros _. rewrite (config_load_error environ e Hload). repeat split.
  - intros config Hconfig.
    unfold startup, bind, lift, Client.CDPAgentkitClient_init, bind, sdk_call, ret.
    rewrite Hconfig. cbn [Client.api_key_name Client.api_key_private Client.instance].
    destruct (cdp_configure _ _ _) as [[[]|e] s]; cbn [fst snd trace files];
      (split; [reflexivity|]); (split; [reflexivity|]); intros self w' [= <- <-].
    repeat split.
Qed.

End Startup.

(** * The dashboard's bookkeeping *)

(** Reading back what was just stored under a key, and any other key. *)
Lemma dict_get_set_same (d : list (string * Json)) k v :
  dict_get (dict_set d k v) k = Some v.
Proof.
  induction d as [|[k' v'] rest IH]; cbn.
  - rewrite String.eqb_refl. reflexivity.
  - destruct (String.eqb k' k) eqn:Hkey; cbn.
    + rewrite String.eqb_refl. reflexivity.
    + rewrite Hkey. exact IH.
Qed.

Lemma dict_get_set_other (d : list (string * Json)) k v k' :
  k' <> k -> dict_get (dict_set d k v) k' = dict_get d k'.
Proof.
  intros Hother. induction d as [|[k0 v0] rest IH]; cbn.
  - destruct (String.eqb_spec k k'); [congruence | reflexivity].
  - destruct (String.eqb_spec k0 k) as [->|Hk0]; cbn.
    + destruct (String.eqb_spec k k'); [congruence | reflexivity].
    + destruct (String.eqb k0 k'); [reflexivity | exact IH].
Qed.

(** Once the stored address is a non-empty list, each new address goes to
    its end. *)
Lemma record_into_list (news : list Json) :
  forall (wallet_data : list (string * Json)) (items : list Json),
    items <> [] ->
    dict_get wallet_data "address" = Some (JArr items) ->
    dict_get (fold_left Dashboard.record_new_address news wallet_data) "address"
      = Some (JArr (items ++ news)) /\
    forall k, k <> "address" ->
      dict_get (fold_left Dashboard.record_new_address news wallet_data) k
      = dict_get wallet_data k.
Proof.
  induction news as [|new rest IH]; intros wallet_data items Hitems Haddress.
  - cbn. rewrite app_nil_r. split; [exact Haddress | reflexivity].
  - cbn [fold_left].
    assert (Hstep : Dashboard.record_new_address wallet_data new
                    = dict_set wallet_data "address" (JArr (items ++ [new]))).
    { unfold Dashboard.record_new_address. rewrite Haddress. cbn [default from_option id py_truthy].
      rewrite bool_decide_eq_false_2 by exact Hitems. reflexivity. }
    rewrite Hstep.
    destruct (IH (dict_set wallet_data "address" (JArr (items ++ [new]))) (items ++ [new]))
      as [Hlist Hkeys].
    + intros Hnil. apply app_eq_nil in Hnil as [_ [=]].
    + apply dict_get_set_same.
    + split.
      * rewrite Hlist, <- app_assoc. reflexivity.
      * intros k Hk. rewrite (Hkeys k Hk). apply dict_get_set_other. exact Hk.
Qed.

(** X18. Starting from wallet data whose address is one record, as
    [create_wallet] returns it, the dashboard keeps every address it is
    given: after any number of new addresses, one at least, the stored
    address is the list of the first record followed by the new ones in the
    order they came, and no other key of the wallet data has changed. *)
Theorem dashboard_addresses_accumulate (wallet_data : list (string * Json))
        (first : list (string * Json)) (news : list Json) :
  first <> [] ->
  news <> [] ->
  dict_get wallet_data "address" = Some (JObj first) ->
  dict_get (fold_left Dashboard.record_new_address news wallet_data) "address"
    = Some (JArr (JObj first :: news)) /\
  forall k, k <> "address" ->
    dict_get (fold_left Dashboard.record_new_address news wallet_data) k
    = dict_get wallet_data k.
Proof.
  intros Hfirst Hnews Haddress.
  destruct news as [|new rest]; [congruence|]. cbn [fold_left].
  assert (Hstep : Dashboard.record_new_address wallet_data new
                  = dict_set wallet_data "address" (JArr [JObj first; new])).
  { unfold Dashboard.record_new_address. rewrite Haddress. cbn [default from_option id py_truthy].
    rewrite bool_decide_eq_false_2 by exact Hfirst. reflexivity. }
  rewrite Hstep.
  destruct (record_into_list rest (dict_set wallet_data "address" (JArr [JObj first; new]))
              [JObj first; new]) as [Hlist Hkeys].
  - discriminate.
  - apply dict_get_set_same.
  - split; [exact Hlist|].
    intros k Hk. rewrite (Hkeys k Hk). apply dict_get_set_other. exact Hk.
Qed.

(** X19. Two ways the dashboard loses track.  When the wallet data has no
    address, or an empty one, the new record is stored as it is, not in a
    list.  When the stored address is a non-empty string or a non-zero
    number, the new record is dropped: the wallet data stays as it was. *)
Theorem dashboard_address_edge_cases (wallet_data : list (string * Json)) (new : Json) :
  (py_truthy (default JNull (dict_get wallet_data "address")) = false ->
   dict_get (Dashboard.record_new_address wallet_data new) "address" = Some new) /\
  (forall s, s <> "" ->
     dict_get wallet_data "address" = Some (JStr s) ->
     Dashboard.record_new_address wallet_data new = wallet_data) /\
  (forall n, n <> 0%Z ->
     dict_get wallet_data "address" = Some (JNum n) ->
     Dashboard.record_new_address wallet_data new = wallet_data).
Proof.
  split; [|split].
  - intros Hfalsy. unfold Dashboard.record_new_address. rewrite Hfalsy.
    apply dict_get_set_same.
  - intros s Hs Haddress. unfold Dashboard.record_new_address. rewrite Haddress.
    cbn [default from_option id py_truthy]. destruct (String.eqb_spec s ""); [congruence | reflexivity].
  - intros n Hn Haddress. unfold Dashboard.record_new_address. rewrite Haddress.
    cbn [default from_option id py_truthy]. destruct (Z.eqb_spec n 0); [congruence | reflexivity].
Qed.

Section DashboardSummary.
Context {P : Type} `{!CdpSdk P}.
Implicit Types (self : Client.CDPAgentkitClient) (w : World P).

(** X20. Whatever [create_wallet] returns, the dashboard can show in full:
    it is a dict from which the summary reads the wallet id and network id
    of the wallet the provider made and the id of the address the provider
    gave, without raising and without falling back on "Not Available". *)
Theorem dashboard_summary_of_created_wallet self network_id w wallet_data w' :
  Client.create_wallet self network_id w = (Return wallet_data, w') ->
  exists fields wallet address s1 s2,
    wallet_data = JObj fields /\
    wallet_create network_id (sdk_state w) = (Return wallet, s1) /\
    wallet_create_address wallet s1 = (Return address, s2) /\
    Dashboard.wallet_summary fields =
      Return (JStr (Wallet.id wallet), JStr (Wallet.network_id wallet),
              JStr (address_id address)).
Proof.
  rewrite create_wallet_run. cbn zeta.
  destruct (wallet_create _ _) as [[wallet|e] s1] eqn:Hcreate; [|discriminate].
  destruct (wallet_create_address _ _) as [[address|e] s2] eqn:Haddress; [|discriminate].
  destruct (wallet_save_seed _ _ _ _ _ _) as [[[[]|e] written] s3]; [|discriminate].
  intros [= <- <-]. eexists _, wallet, address, s1, s2.
  split; [reflexivity|]. split; [reflexivity|]. split; [exact Haddress|]. reflexivity.
Qed.

End DashboardSummary.

(** * The further properties on running providers *)

(** X1 on the provider that runs out, at the first and at the second call. *)
Lemma create_wallet_provider_failure_witness :
  (fst (Client.create_wallet Flaky.client "base-sepolia" (Flaky.world 0))
     = Raise (Exception "Failed to create wallet and address: rate limit exceeded") /\
   trace (snd (Client.create_wallet Flaky.client "base-sepolia" (Flaky.world 0)))
     = [SdkWalletCreate "base-sepolia"]) /\
  (trace (snd (Client.create_wallet Flaky.client "base-sepolia" (Flaky.world 1)))
     = [SdkWalletCreate "base-sepolia"; SdkCreateAddress "wallet-7"] /\
   files (snd (Client.create_wallet Flaky.client "base-sepolia" (Flaky.world 1)))
     !! "my_wallet_seed.json" = Some "seed-of-wallet-7").
Proof.
  destruct (create_wallet_provider_failure "key-id" "key-secret" "base-sepolia"
              (Flaky.world 0)) as [Hfirst _].
  destruct (create_wallet_provider_failure "key-id" "key-secret" "base-sepolia"
              (Flaky.world 1)) as [_ Hsecond].
  split.
  - destruct (Hfirst Flaky.refused {| Flaky.calls_left := 0 |}) as (Hraised & Htrace & _);
      [reflexivity|].
    split; [exact Hraised | exact Htrace].
  - destruct (Hsecond (Wallet.mk "wallet-7" "base-sepolia") Flaky.refused
                      {| Flaky.calls_left := 0 |} {| Flaky.calls_left := 0 |})
      as (_ & Htrace & _ & Hfile); [reflexivity | reflexivity |].
    split; [exact Htrace | exact Hfile].
Defined.

(** X2 on a create with a full disk, an import of a corrupt seed, and a
    load and an export with no seed file. *)
Lemma client_errors_are_wrapped_witness :
  (exists cause,
     fst (Client.create_wallet Demo.client "base-sepolia" Demo.full_world)
     = Raise (Exception ("Failed to create wallet and address: " +:+ cause))) /\
  (exists cause,
     fst (Client.import_wallet Demo.client [("encrypted_seed", JStr "corrupt-blob")]
                               Demo.seeded_world)
     = Raise (Exception ("Failed to import wallet: " +:+ cause))) /\
  (exists cause,
     fst (Client.load_wallet Demo.client Demo.empty_world)
     = Raise (Exception ("Failed to load wallet: " +:+ cause))) /\
  (exists cause,
     fst (run_op Demo.client OpExportWallet Demo.empty_world)
     = Raise (Exception ("Failed to export wallet: " +:+ cause))).
Proof.
  split; [|split; [|split]].
  - destruct (client_errors_are_wrapped Demo.client Demo.full_world
      (Exception "Failed to create wallet and address: [Errno 28] No space left on device"))
      as (Hcreate & _).
    destruct (Hcreate "base-sepolia") as [cause Hcause]; [vm_compute; reflexivity|].
    exists cause. rewrite <- Hcause. vm_compute. reflexivity.
  - destruct (client_errors_are_wrapped Demo.client Demo.seeded_world
      (Exception "Failed to import wallet: Failed to load wallet: Seed could not be decrypted"))
      as (_ & Himport & _).
    destruct (Himport [("encrypted_seed", JStr "corrupt-blob")]) as [cause Hcause];
      [vm_compute; reflexivity|].
    exists cause. rewrite <- Hcause. vm_compute. reflexivity.
  - destruct (client_errors_are_wrapped Demo.client Demo.empty_world
      (Exception "Failed to load wallet: Wallet seed file not found."))
      as (_ & _ & Hload & _).
    destruct Hload as [cause Hcause]; [vm_compute; reflexivity|].
    exists cause. rewrite <- Hcause. vm_compute. reflexivity.
  - destruct (client_errors_are_wrapped Demo.client Demo.empty_world
      (Exception "Failed to export wallet: Failed to load wallet: Wallet seed file not found."))
      as (_ & _ & _ & Hop).
    destruct (Hop OpExportWallet) as [cause Hcause]; [vm_compute; reflexivity|].
    cbn [op_prefix] in Hcause. exists cause. rewrite <- Hcause. vm_compute. reflexivity.
Defined.

(** X3 on the provider whose [load_seed] gives [None]. *)
Lemma load_wallet_never_none_witness :
  fst (Client.load_wallet Flaky.client (Flaky.world 3)) =
    Raise (Exception "Failed to load wallet: 'NoneType' object has no attribute 'id'") /\
  fst (run_op Flaky.client OpRetrieveBalances (Flaky.world 3)) =
    Raise (Exception
             "Failed to retrieve balances: Failed to load wallet: 'NoneType' object has no attribute 'id'").
Proof.
  destruct (load_wallet_never_none Flaky.client (Flaky.world 3)) as [_ Hnone].
  destruct (Hnone "seed-of-wallet-7" {| Flaky.calls_left := 3 |}) as [Hload Hops];
    [reflexivity | reflexivity |].
  split; [rewrite Hload; reflexivity | rewrite (Hops OpRetrieveBalances); reflexivity].
Defined.

(** X4 on a number and on a null sent as the seed, over a stored seed. *)
Lemma import_non_string_seed_empties_file_witness :
  files Demo.seeded_world !! "my_wallet_seed.json" = Some "enc:wallet-1@base-sepolia" /\
  fst (Client.import_wallet Demo.client [("encrypted_seed", JNum 5)] Demo.seeded_world) =
    Raise (Exception "Failed to import wallet: write() argument must be str, not int") /\
  files (snd (Client.import_wallet Demo.client [("encrypted_seed", JNum 5)]
                Demo.seeded_world))
    !! "my_wallet_seed.json" = Some "" /\
  fst (Client.import_wallet Demo.client [("encrypted_seed", JNull)] Demo.seeded_world) =
    Raise (Exception "Failed to import wallet: write() argument must be str, not None").
Proof.
  destruct (import_non_string_seed_empties_file "key-id" "key-secret"
              [("encrypted_seed", JNum 5)] (JNum 5) Demo.seeded_world)
    as (Hraised & Hfile & _); [reflexivity | discriminate | reflexivity |].
  destruct (import_non_string_seed_empties_file "key-id" "key-secret"
              [("encrypted_seed", JNull)] JNull Demo.seeded_world)
    as (Hnull & _); [reflexivity | discriminate | reflexivity |].
  split; [reflexivity|]. split; [exact Hraised|]. split; [exact Hfile | exact Hnull].
Defined.

(** X5 on a seed file that may not be written. *)
Lemma import_read_only_seed_file_witness :
  fst (Client.import_wallet Demo.client
         [("encrypted_seed", JStr "enc:wallet-1@base-sepolia")]
         (mkWorld ∅ {[ "my_wallet_seed.json" ]} Demo.fresh [])) =
    Raise (Exception
             "Failed to import wallet: [Errno 13] Permission denied: 'my_wallet_seed.json'") /\
  trace (snd (Client.import_wallet Demo.client
                [("encrypted_seed", JStr "enc:wallet-1@base-sepolia")]
                (mkWorld ∅ {[ "my_wallet_seed.json" ]} Demo.fresh []))) =
    [OpenForWrite "my_wallet_seed.json"].
Proof.
  destruct (import_read_only_seed_file "key-id" "key-secret"
              [("encrypted_seed", JStr "enc:wallet-1@base-sepolia")]
              (JStr "enc:wallet-1@base-sepolia")
              (mkWorld ∅ {[ "my_wallet_seed.json" ]} Demo.fresh []))
    as (Hraised & _ & Htrace & _); [reflexivity | reflexivity |].
  split; [exact Hraised | exact Htrace].
Defined.

(** X7 on the stored demo wallet. *)
Lemma create_address_result_witness :
  fst (Client.create_address Demo.client Demo.seeded_world) =
    Return (JObj [("address_id", JStr "0xA0");
                  ("wallet_id", JStr "wallet-1");
                  ("network_id", JStr "base-sepolia")]).
Proof.
  rewrite (create_address_result Demo.client Demo.seeded_world "enc:wallet-1@base-sepolia"
             (Demo.the_wallet "base-sepolia") {| address_id := "0xA0" |} Demo.fresh
             {| Demo.configured := true; Demo.disk_full := false;
                Demo.wallets_made := 0; Demo.addresses_made := 1 |});
    reflexivity.
Defined.

(** X8 on the stored demo wallet. *)
Lemma create_webhook_registration_witness :
  trace (snd (Client.create_webhook Demo.client "https://example.org/hook"
                                    Demo.seeded_world)) =
    [OsPathExists "my_wallet_seed.json";
     SdkLoadSeed "my_wallet_seed.json" "key-secret";
     SdkCreateWebhook "wallet-1" "https://example.org/hook" ["TRANSACTION_RECEIVED"]].
Proof.
  rewrite (create_webhook_registration Demo.client "https://example.org/hook"
             Demo.seeded_world "enc:wallet-1@base-sepolia"
             (Demo.the_wallet "base-sepolia") Demo.fresh);
    reflexivity.
Defined.

(** X9 on the stored demo wallet. *)
Lemma export_and_balances_pass_through_witness :
  fst (Client.export_wallet Demo.client Demo.seeded_world) =
    Return (Demo.snapshot (Demo.the_wallet "base-sepolia")) /\
  fst (Client.retrieve_balances Demo.client Demo.seeded_world) =
    Return (JObj [("usdc", JStr "0")]).
Proof.
  destruct (export_and_balances_pass_through Demo.client Demo.seeded_world
              "enc:wallet-1@base-sepolia" (Demo.the_wallet "base-sepolia") Demo.fresh)
    as (Hexport & Hbalances & _); [reflexivity | reflexivity |].
  split; [rewrite Hexport | rewrite Hbalances]; reflexivity.
Defined.

(** X10 on the demo provider: the second address belongs to the wallet just
    made, and differs from the first. *)
Lemma create_then_create_address_witness :
  fst (Client.create_address Demo.client
         (snd (Client.create_wallet Demo.client "base-sepolia" Demo.empty_world))) =
    Return (JObj [("address_id", JStr "0xA1");
                  ("wallet_id", JStr "wallet-1");
                  ("network_id", JStr "base-sepolia")]).
Proof.
  destruct (create_then_create_address Demo.client "base-sepolia" Demo.empty_world
              (Demo.the_wallet "base-sepolia")
              {| address_id := "0xA0" |} {| address_id := "0xA1" |}
              "enc:wallet-1@base-sepolia"
              {| Demo.configured := true; Demo.disk_full := false;
                 Demo.wallets_made := 1; Demo.addresses_made := 0 |}
              {| Demo.configured := true; Demo.disk_full := false;
                 Demo.wallets_made := 1; Demo.addresses_made := 1 |}
              {| Demo.configured := true; Demo.disk_full := false;
                 Demo.wallets_made := 1; Demo.addresses_made := 1 |}
              {| Demo.configured := true; Demo.disk_full := false;
                 Demo.wallets_made := 1; Demo.addresses_made := 1 |}
              {| Demo.configured := true; Demo.disk_full := false;
                 Demo.wallets_made := 1; Demo.addresses_made := 2 |})
    as (_ & Hsecond & _);
    [reflexivity | reflexivity | reflexivity | reflexivity | reflexivity | reflexivity |].
  rewrite Hsecond. reflexivity.
Defined.

(** X11 on an export with no seed file and a create with a full disk. *)
Lemma api_failures_are_400_witness :
  (exists cause,
     fst (Api.export_wallet Demo.client Demo.empty_world)
     = Raise (HTTPException 400 ("Failed to export wallet: " +:+ cause))) /\
  (exists cause,
     fst (Api.create_wallet Demo.client "base-sepolia" Demo.full_world)
     = Raise (HTTPException 400 ("Failed to create wallet and address: " +:+ cause))).
Proof.
  split.
  - destruct (api_failures_are_400 Demo.client Demo.empty_world
      (HTTPException 400
         "Failed to export wallet: Failed to load wallet: Wallet seed file not found."))
      as (_ & Hexport & _).
    destruct Hexport as [cause Hcause]; [vm_compute; reflexivity|].
    exists cause. rewrite <- Hcause. vm_compute. reflexivity.
  - destruct (api_failures_are_400 Demo.client Demo.full_world
      (HTTPException 400
         "Failed to create wallet and address: [Errno 28] No space left on device"))
      as (Hcreate & _).
    destruct (Hcreate "base-sepolia") as [cause Hcause]; [vm_compute; reflexivity|].
    exists cause. rewrite <- Hcause. vm_compute. reflexivity.
Defined.

(** X12 on a well-formed transfer request. *)
Lemma api_gasless_always_fails_witness :
  fst (Api.execute_gasless_transaction Demo.client
         (Api.GaslessTransactionRequest_init "wallet-1" "0xB0B" "5" None)
         Demo.seeded_world) =
    Raise (HTTPException 400 "'CDPAgentkitClient' object has no attribute '_get_headers'").
Proof.
  destruct (api_gasless_always_fails "key-id" "key-secret"
              (Api.GaslessTransactionRequest_init "wallet-1" "0xB0B" "5" None)
              Demo.seeded_world) as (_ & _ & _ & Hdetail).
  apply (Hdetail "https://api.cdp.coinbase.com" Demo.fresh). reflexivity.
Defined.

(** X13 on a list that holds the field's name. *)
Lemma api_import_non_object_body_witness :
  (exists detail,
     fst (Api.import_wallet Demo.client
            {| Api.request_json := Return (JArr [JStr "encrypted_seed"]) |}
            Demo.seeded_world)
     = Raise (HTTPException 400 detail)) /\
  trace (snd (Api.import_wallet Demo.client
                {| Api.request_json := Return (JArr [JStr "encrypted_seed"]) |}
                Demo.seeded_world)) = [] /\
  files (snd (Api.import_wallet Demo.client
                {| Api.request_json := Return (JArr [JStr "encrypted_seed"]) |}
                Demo.seeded_world))
    !! "my_wallet_seed.json" = Some "enc:wallet-1@base-sepolia".
Proof.
  destruct (api_import_non_object_body Demo.client (JArr [JStr "encrypted_seed"])
              Demo.seeded_world) as [(Hraised & Htrace & _ & Hfile) _]; [discriminate|].
  split; [exact Hraised|]. split; [exact Htrace | exact Hfile].
Defined.

(** X14 on a corrupt blob and on a blob that cannot be written, sent over a
    stored seed. *)
Lemma api_import_failed_load_overwrites_witness :
  fst (Api.import_wallet Demo.client
         {| Api.request_json := Return (JObj [("encrypted_seed", JStr "corrupt-blob")]) |}
         Demo.seeded_world) =
    Raise (HTTPException 400 "Failed to load wallet: Seed could not be decrypted") /\
  files (snd (Api.import_wallet Demo.client
                {| Api.request_json := Return (JObj [("encrypted_seed", JStr "corrupt-blob")]) |}
                Demo.seeded_world))
    !! "my_wallet_seed.json" = Some "corrupt-blob" /\
  files (snd (Api.import_wallet Demo.client
                {| Api.request_json :=
                     Return (JObj [("encrypted_seed", JStr Codec.lone_surrogate)]) |}
                Demo.seeded_world))
    !! "my_wallet_seed.json" = Some "".
Proof.
  destruct (api_import_failed_load_overwrites "key-id" "key-secret"
              [("encrypted_seed", JStr "corrupt-blob")] "corrupt-blob" Demo.seeded_world)
    as [Hwritten _]; [reflexivity | reflexivity |].
  destruct (Hwritten eq_refl (PyException "ValueError" "Seed could not be decrypted")
                     Demo.fresh) as [Hstatus Hfile]; [reflexivity|].
  destruct (api_import_failed_load_overwrites "key-id" "key-secret"
              [("encrypted_seed", JStr Codec.lone_surrogate)] Codec.lone_surrogate
              Demo.seeded_world)
    as [_ Hrefused]; [reflexivity | reflexivity |].
  destruct (Hrefused Codec.surrogate_refused) as (_ & Hempty & _); [reflexivity|].
  split; [exact Hstatus|]. split; [exact Hfile | exact Hempty].
Defined.

(** X15 on a null sent as the seed, over a stored seed. *)
Lemma api_import_non_string_seed_empties_file_witness :
  fst (Api.import_wallet Demo.client
         {| Api.request_json := Return (JObj [("encrypted_seed", JNull)]) |}
         Demo.seeded_world) =
    Raise (HTTPException 400 "write() argument must be str, not None") /\
  files (snd (Api.import_wallet Demo.client
                {| Api.request_json := Return (JObj [("encrypted_seed", JNull)]) |}
                Demo.seeded_world))
    !! "my_wallet_seed.json" = Some "".
Proof.
  destruct (api_import_non_string_seed_empties_file Demo.client [("encrypted_seed", JNull)]
              JNull Demo.seeded_world)
    as (Hraised & Hfile & _); [reflexivity | discriminate | reflexivity |].
  split; [exact Hraised | exact Hfile].
Defined.

(** X16 on an environment with both keys and no BASE_URL, next to one whose
    secret is empty. *)
Lemma config_requires_both_keys_witness :
  Config.load {[ "API_KEY_NAME" := "key-id"; "API_KEY_PRIVATE" := "key-secret" ]} =
    Return {| Config.BASE_URL := "https://api.cdp.coinbase.com";
              Config.API_KEY_NAME := "key-id";
              Config.API_KEY_PRIVATE := "key-secret" |} /\
  Config.BASE_URL {| Config.BASE_URL := "https://api.cdp.coinbase.com";
                     Config.API_KEY_NAME := "key-id";
                     Config.API_KEY_PRIVATE := "key-secret" |}
    = "https://api.cdp.coinbase.com" /\
  is_raise (Config.load {[ "API_KEY_NAME" := "key-id"; "API_KEY_PRIVATE" := "" ]}) = true.
Proof.
  destruct (config_requires_both_keys
              {[ "API_KEY_NAME" := "key-id"; "API_KEY_PRIVATE" := "key-secret" ]})
    as (_ & _ & Hgood).
  destruct (Hgood {| Config.BASE_URL := "https://api.cdp.coinbase.com";
                     Config.API_KEY_NAME := "key-id";
                     Config.API_KEY_PRIVATE := "key-secret" |})
    as (_ & _ & _ & _ & Hdefault & _); [reflexivity|].
  destruct (config_requires_both_keys
              {[ "API_KEY_NAME" := "key-id"; "API_KEY_PRIVATE" := "" ]})
    as ([_ Hraises] & _).
  split; [reflexivity|]. split.
  - apply Hdefault. reflexivity.
  - apply Hraises. right. right. right. reflexivity.
Defined.

(** X17 on the demo provider, with and without the secret. *)
Lemma startup_configures_or_stops_witness :
  fst (startup {[ "API_KEY_NAME" := "key-id" ]} Demo.unconfigured_world)
    = Raise Config.missing_keys /\
  trace (snd (startup {[ "API_KEY_NAME" := "key-id" ]} Demo.unconfigured_world)) = [] /\
  trace (snd (startup {[ "API_KEY_NAME" := "key-id"; "API_KEY_PRIVATE" := "key-secret" ]}
                Demo.unconfigured_world)) =
    [SdkConfigure "key-id" "key-secret"].
Proof.
  destruct (startup_configures_or_stops {[ "API_KEY_NAME" := "key-id" ]}
              Demo.unconfigured_world) as [Hstops _].
  destruct (startup_configures_or_stops
              {[ "API_KEY_NAME" := "key-id"; "API_KEY_PRIVATE" := "key-secret" ]}
              Demo.unconfigured_world) as [_ Hruns].
  destruct Hstops as (Hraised & Htrace & _); [reflexivity|].
  split; [exact Hraised|]. split; [exact Htrace|].
  destruct (Hruns {| Config.BASE_URL := "https://api.cdp.coinbase.com";
                     Config.API_KEY_NAME := "key-id";
                     Config.API_KEY_PRIVATE := "key-secret" |}) as (Hconfigured & _);
    [reflexivity|].
  exact Hconfigured.
Defined.

(** X18 on two addresses added to the wallet data of a new wallet. *)
Lemma dashboard_addresses_accumulate_witness :
  dict_get
    (fold_left Dashboard.record_new_address
       [JObj [("address_id", JStr "0xA1")]; JObj [("address_id", JStr "0xA2")]]
       [("wallet_id", JStr "wallet-1");
        ("network_id", JStr "base-sepolia");
        ("address", JObj [("address_id", JStr "0xA0")])])
    "address"
  = Some (JArr [JObj [("address_id", JStr "0xA0")];
                JObj [("address_id", JStr "0xA1")];
                JObj [("address_id", JStr "0xA2")]]).
Proof.
  apply (dashboard_addresses_accumulate
           [("wallet_id", JStr "wallet-1");
            ("network_id", JStr "base-sepolia");
            ("address", JObj [("address_id", JStr "0xA0")])]
           [("address_id", JStr "0xA0")]
           [JObj [("address_id", JStr "0xA1")]; JObj [("address_id", JStr "0xA2")]]);
    [discriminate | discriminate | reflexivity].
Defined.

(** X19 on wallet data without an address and with a string for one. *)
Lemma dashboard_address_edge_cases_witness :
  dict_get (Dashboard.record_new_address [("wallet_id", JStr "wallet-1")]
              (JObj [("address_id", JStr "0xA1")])) "address"
    = Some (JObj [("address_id", JStr "0xA1")]) /\
  Dashboard.record_new_address [("address", JStr "0xA0")] (JObj [("address_id", JStr "0xA1")])
    = [("address", JStr "0xA0")] /\
  Dashboard.record_new_address [("address", JNum 7)] (JObj [("address_id", JStr "0xA1")])
    = [("address", JNum 7)].
Proof.
  split; [|split].
  - apply (proj1 (dashboard_address_edge_cases [("wallet_id", JStr "wallet-1")]
                    (JObj [("address_id", JStr "0xA1")]))). reflexivity.
  - apply (proj1 (proj2 (dashboard_address_edge_cases [("address", JStr "0xA0")]
                           (JObj [("address_id", JStr "0xA1")]))) "0xA0");
      [discriminate | reflexivity].
  - apply (proj2 (proj2 (dashboard_address_edge_cases [("address", JNum 7)]
                           (JObj [("address_id", JStr "0xA1")]))) 7%Z);
      [discriminate | reflexivity].
Defined.

(** X20 on the demo provider. *)
Lemma dashboard_summary_of_created_wallet_witness :
  exists fields,
    fst (Client.create_wallet Demo.client "base-sepolia" Demo.empty_world)
      = Return (JObj fields) /\
    Dashboard.wallet_summary fields =
      Return (JStr "wallet-1", JStr "base-sepolia", JStr "0xA0").
Proof.
  destruct (dashboard_summary_of_created_wallet Demo.client "base-sepolia" Demo.empty_world
              (JObj [("wallet_id", JStr "wallet-1");
                     ("network_id", JStr "base-sepolia");
                     ("address", JObj [("address_id", JStr "0xA0");
                                       ("wallet_id", JStr "wallet-1");
                                       ("network_id", JStr "base-sepolia")])])
              (snd (Client.create_wallet Demo.client "base-sepolia" Demo.empty_world)))
    as (fields & wallet & address & s1 & s2 & Hdata & Hcreate & Haddress & Hsummary);
    [vm_compute; reflexivity|].
  exists fields. injection Hdata as <-. split; vm_compute; reflexivity.
Defined.
